(** * Verification of the dashboard data-access layer ([app/lib/data.ts])

    The module under study is a set of asynchronous read accessors.  Each
    accessor sends one or more queries to an external row store, inspects
    the answer, reshapes the rows and either returns a value or throws a
    fresh [Error] with a fixed message, after writing to the console.

    The embedding is shallow:
    - console output and exceptions are threaded through a small effect
      monad [Eff] (a log paired with an outcome);
    - the two store clients ([supabase] and the [sql] tagged template) are
      records of functions, one field per query text of the source, whose
      result is a settled promise;
    - the SQL statements of the source are given a list semantics over an
      in-memory [Database] (module [Pg]), which is what the claims about
      pagination, counting and filtering are proved against.

    JavaScript numbers are binary64.  Integers that the code only stores,
    compares or adds (amounts in cents, counts, sums of amounts) are
    modelled by [Z], which is what binary64 computes as long as the values
    stay within [2^53] in magnitude; the statements that need this bound say
    so.  The quotient [amount / 100] is computed in binary64 (module
    [Double]).  The page count [Math.ceil(count / ITEMS_PER_PAGE)] is the
    exact ceiling, which is the binary64 result for counts below [2^53]. *)

From Stdlib Require Import List String Ascii Bool ZArith QArith Qround Lia.
From Stdlib Require Import Permutation Sorted DecimalString SpecFloat.
From Stdlib Require OrderedTypeEx.
Import ListNotations.

Local Open Scope Z_scope.
Local Open Scope string_scope.
Local Open Scope list_scope.

Set Implicit Arguments.

(* ================================================================= *)
(** * Effects: console, exceptions, promises *)

(** The error object attached to a failed supabase response. *)
Record PostgrestError := mkPostgrestError {
  message : string;
  code : string
}.

(** Values that the code throws, catches or prints with [console.error]. *)
Inductive js_exn :=
| ErrorObj (msg : string)              (* new Error(msg), or a driver error *)
| TypeErrorObj (msg : string)          (* property access on undefined/null *)
| PostgrestObj (e : PostgrestError).   (* a supabase error object, thrown as is *)

(** A settled promise, as seen by [await]. *)
Inductive settled (A : Type) :=
| Fulfilled (a : A)
| Rejected (e : js_exn).
Arguments Fulfilled {A} a.
Arguments Rejected {A} e.

(** The result of running an accessor to completion. *)
Inductive outcome (A : Type) :=
| Returned (a : A)
| Threw (e : js_exn).
Arguments Returned {A} a.
Arguments Threw {A} e.

(* ----------------------------------------------------------------- *)
(** ** Rows *)

Record Revenue := mkRevenue {
  rev_month : string;
  rev_revenue : Z
}.

(** Columns of the [customers] table. *)
Record CustomerRow := mkCustomer {
  c_id : string;
  c_name : string;
  c_email : string;
  c_image_url : string
}.

(** Columns of the [invoices] table.  [i_amount] is in cents; [i_date] is
    the ISO-8601 text of the date ([YYYY-MM-DD]), whose lexicographic order
    is the chronological one. *)
Record InvoiceRow := mkInvoice {
  i_id : string;
  i_customer_id : string;
  i_amount : Z;
  i_status : string;
  i_date : string
}.

(** The embedded relation [customers (name, image_url, email)]. *)
Record CustomerRef := mkCustomerRef {
  cr_name : string;
  cr_image_url : string;
  cr_email : string
}.

(** A to-one join comes back from the store either as one (possibly null)
    object or as an array of objects. *)
Inductive Relation :=
| RelObject (c : option CustomerRef)
| RelArray (cs : list CustomerRef).

(** Row of the [fetchLatestInvoices] query. *)
Record LatestInvoiceRaw := mkLatestRaw {
  lr_amount : Z;
  lr_id : string;
  lr_date : string;
  lr_customer_id : string;
  lr_customers : Relation
}.

(** Element returned by [fetchLatestInvoices]: the spread of the raw row
    (which keeps [customers]), [amount] overwritten, three fields added.
    The added fields are [undefined] when there is no customer. *)
Record LatestInvoice := mkLatest {
  li_amount : string;
  li_id : string;
  li_date : string;
  li_customer_id : string;
  li_customers : Relation;
  li_name : option string;
  li_image_url : option string;
  li_email : option string
}.

Record AmountStatus := mkAmountStatus {
  as_amount : Z;
  as_status : string
}.

Record CardData := mkCardData {
  numberOfCustomers : Z;
  numberOfInvoices : Z;
  totalPaidInvoices : string;
  totalPendingInvoices : string
}.

(** Row type of [fetchFilteredInvoices]. *)
Record InvoicesTable := mkInvoicesTable {
  it_id : string;
  it_amount : Z;
  it_date : string;
  it_status : string;
  it_name : string;
  it_email : string;
  it_image_url : string
}.

Record CountRow := mkCountRow { count : Z }.

(** Row selected by [fetchInvoiceById], and the value it returns. *)
Record InvoiceFormRow := mkInvoiceFormRow {
  fr_id : string;
  fr_customer_id : string;
  fr_amount : Z;
  fr_status : string
}.

Record InvoiceForm := mkInvoiceForm {
  if_id : string;
  if_customer_id : string;
  if_amount : spec_float;
  if_status : string
}.

Record CustomerField := mkCustomerField {
  cf_id : string;
  cf_name : string
}.

(** Row of the grouped query of [fetchFilteredCustomers], and the element
    returned after formatting. *)
Record CustomersTableRaw := mkCustomersTableRaw {
  ct_id : string;
  ct_name : string;
  ct_email : string;
  ct_image_url : string;
  ct_total_invoices : Z;
  ct_total_pending : Z;
  ct_total_paid : Z
}.

Record FormattedCustomersTable := mkFormattedCustomers {
  fc_id : string;
  fc_name : string;
  fc_email : string;
  fc_image_url : string;
  fc_total_invoices : Z;
  fc_total_pending : string;
  fc_total_paid : string
}.

(* ----------------------------------------------------------------- *)
(** ** The console and the effect monad *)

Inductive log_payload :=
| PRevenue (data : list Revenue)
| PLatest (data : list LatestInvoice)
| PCount (n : option Z).

Inductive log_entry :=
| ConsoleError (label : string) (what : js_exn)
| ConsoleLog (label : string) (what : log_payload).

Definition Eff (A : Type) : Type := (list log_entry * outcome A)%type.

Definition ret {A} (a : A) : Eff A := ([], Returned a).

Definition throw {A} (e : js_exn) : Eff A := ([], Threw e).

Definition bind {A B} (m : Eff A) (k : A -> Eff B) : Eff B :=
  match m with
  | (l, Returned a) => let (l', r) := k a in (l ++ l', r)
  | (l, Threw e) => (l, Threw e)
  end.

Definition try_catch {A} (body : Eff A) (handler : js_exn -> Eff A) : Eff A :=
  match body with
  | (l, Returned a) => (l, Returned a)
  | (l, Threw e) => let (l', r) := handler e in (l ++ l', r)
  end.

Definition await {A} (p : settled A) : Eff A :=
  match p with
  | Fulfilled a => ret a
  | Rejected e => throw e
  end.

Definition console_error (label : string) (what : js_exn) : Eff unit :=
  ([ConsoleError label what], Returned tt).

Definition console_log (label : string) (what : log_payload) : Eff unit :=
  ([ConsoleLog label what], Returned tt).

Declare Scope eff_scope.
Delimit Scope eff_scope with eff.
Notation "x <- m ;; k" := (bind m (fun x => k))
  (at level 61, m at next level, right associativity) : eff_scope.
Notation "m ;; k" := (bind m (fun _ => k))
  (at level 61, right associativity) : eff_scope.
Local Open Scope eff_scope.

Definition console_of {A} (m : Eff A) : list log_entry := fst m.
Definition outcome_of {A} (m : Eff A) : outcome A := snd m.

(* ================================================================= *)
(** * The store clients *)

(** Answer of the supabase query builder: a success carries the rows and,
    when [count: 'exact'] was requested, the count; a failure carries the
    error object.  The builder resolves with one of the two; the promise may
    also reject. *)
Inductive sb_response (T : Type) :=
| SbSuccess (data : T) (cnt : option Z)
| SbFailure (error : PostgrestError).
Arguments SbSuccess {T} data cnt.
Arguments SbFailure {T} error.

(** One field per builder chain of the source. *)
Record SupabaseClient := mkSupabase {
  (* from('revenue').select('*') *)
  sb_revenue : settled (sb_response (list Revenue));
  (* from('invoices').select(amount, id, date, customer_id, customers(...))
       .order('date', {ascending: false}).limit(5) *)
  sb_latest_invoices : settled (sb_response (list LatestInvoiceRaw));
  (* from('invoices').select('*', {count: 'exact'}) *)
  sb_invoice_count : settled (sb_response (list InvoiceRow));
  (* from('customers').select('*', {count: 'exact'}) *)
  sb_customer_count : settled (sb_response (list CustomerRow));
  (* from('invoices').select('amount, status').in('status', ['paid','pending']) *)
  sb_invoice_status : settled (sb_response (list AmountStatus))
}.

(** One field per [sql] template of the source; the arguments are the
    interpolated parameters, in order. *)
Record SqlClient := mkSql {
  sql_filtered_invoices :
    string -> string -> string -> string -> string -> Z -> Z ->
    settled (list InvoicesTable);
  sql_count_invoices :
    string -> string -> string -> string -> string ->
    settled (list CountRow);
  sql_invoice_by_id : string -> settled (list InvoiceFormRow);
  sql_customers : settled (list CustomerField);
  sql_filtered_customers : string -> string -> settled (list CustomersTableRaw)
}.

(* ================================================================= *)
(** * The accessors *)

(** Fixed message thrown by each accessor's [catch] block. *)
Inductive accessor :=
| FetchRevenue | FetchLatestInvoices | FetchCardData | FetchFilteredInvoices
| FetchInvoicesPages | FetchInvoiceById | FetchCustomers | FetchFilteredCustomers.

Definition failure_message (op : accessor) : string :=
  match op with
  | FetchRevenue => "Failed to fetch revenue data."
  | FetchLatestInvoices => "Failed to fetch the latest invoices."
  | FetchCardData => "Failed to fetch card data."
  | FetchFilteredInvoices => "Failed to fetch invoices."
  | FetchInvoicesPages => "Failed to fetch total number of invoices."
  | FetchInvoiceById => "Failed to fetch invoice."
  | FetchCustomers => "Failed to fetch all customers."
  | FetchFilteredCustomers => "Failed to fetch customer table."
  end.

Definition ITEMS_PER_PAGE : Z := 6.

(** [`%${query}%`] *)
Definition like_pattern (query : string) : string := "%" ++ query ++ "%".

(** [Math.ceil(n / d)] on integers [n] and [d]. *)
Definition Math_ceil_div (n d : Z) : Z := Qceiling (inject_Z n / inject_Z d).

(** IEEE 754 binary64, the number type of the runtime. *)
Module Double.
Definition of_Z (z : Z) : spec_float := binary_normalize 53 1024 z 0 false.
Definition div : spec_float -> spec_float -> spec_float := SFdiv 53 1024.
Definition ltb : spec_float -> spec_float -> bool := SFltb.

(** The rational a finite number stands for, in lowest terms. *)
Definition to_Q (x : spec_float) : option Q :=
  match x with
  | S754_zero _ => Some 0%Q
  | S754_finite s m e =>
      Some (Qred ((if s then - inject_Z (Zpos m) else inject_Z (Zpos m)) * (2 # 1) ^ e))%Q
  | S754_infinity _ => None
  | S754_nan => None
  end.
End Double.

(** [x ?? '0'] followed by [Number(...)]. *)
Definition Number_or_zero (x : option Z) : Z :=
  match x with Some n => n | None => 0 end.

Section Accessors.

(** [formatCurrency] lives in [./utils]; the accessors only pass it integer
    amounts and use its result as an opaque string. *)
Variable formatCurrency : Z -> string.

Variable supabase : SupabaseClient.
Variable sql : SqlClient.

Definition fetchRevenue : Eff (list Revenue) :=
  try_catch
    (r <- await (sb_revenue supabase) ;;
     match r with
     | SbFailure error =>
         console_error "Supabase Query Error:" (PostgrestObj error) ;;
         throw (ErrorObj (message error))
     | SbSuccess data _ =>
         console_log "Fetched Revenue Data:" (PRevenue data) ;;
         ret data
     end)
    (fun error =>
       console_error "Fetch Revenue Error:" error ;;
       throw (ErrorObj (failure_message FetchRevenue))).

(** The callback of [data.map] in [fetchLatestInvoices]. *)
Definition flatten_latest (invoice : LatestInvoiceRaw) : LatestInvoice :=
  let customer :=
    match lr_customers invoice with
    | RelArray cs => hd_error cs
    | RelObject c => c
    end in
  {| li_amount := formatCurrency (lr_amount invoice);
     li_id := lr_id invoice;
     li_date := lr_date invoice;
     li_customer_id := lr_customer_id invoice;
     li_customers := lr_customers invoice;
     li_name := option_map cr_name customer;
     li_image_url := option_map cr_image_url customer;
     li_email := option_map cr_email customer |}.

Definition fetchLatestInvoices : Eff (list LatestInvoice) :=
  try_catch
    (r <- await (sb_latest_invoices supabase) ;;
     match r with
     | SbFailure error =>
         console_error "Error fetching latest invoices" (PostgrestObj error) ;;
         throw (PostgrestObj error)
     | SbSuccess data _ =>
         let latestInvoices := map flatten_latest data in
         console_log "Fetched Latest Invoices" (PLatest latestInvoices) ;;
         ret latestInvoices
     end)
    (fun error =>
       console_error "Database Error:" error ;;
       throw (ErrorObj (failure_message FetchLatestInvoices))).

(** [data.filter(i => i.status === s).reduce((sum, i) => sum + parseFloat(i.amount), 0)] *)
Definition sum_with_status (s : string) (data : list AmountStatus) : Z :=
  fold_left (fun sum invoice => sum + as_amount invoice)
            (filter (fun invoice => String.eqb (as_status invoice) s) data) 0.

Definition fetchCardData : Eff CardData :=
  try_catch
    (r1 <- await (sb_invoice_count supabase) ;;
     invoiceCount <-
       match r1 with
       | SbFailure invoiceError =>
           console_error "Error fetching invoice count:" (PostgrestObj invoiceError) ;;
           ret None
       | SbSuccess _ invoiceCount =>
           console_log "Invoice count:" (PCount invoiceCount) ;;
           ret invoiceCount
       end ;;
     r2 <- await (sb_customer_count supabase) ;;
     customerCount <-
       match r2 with
       | SbFailure customerError =>
           console_error "Error fetching customer count:" (PostgrestObj customerError) ;;
           ret None
       | SbSuccess _ customerCount =>
           console_log "Customer count" (PCount customerCount) ;;
           ret customerCount
       end ;;
     r3 <- await (sb_invoice_status supabase) ;;
     totals <-
       match r3 with
       | SbFailure invoiceStatusError =>
           console_error "Error fetching invoice status data:"
                         (PostgrestObj invoiceStatusError) ;;
           ret (0, 0)
       | SbSuccess invoiceStatusData _ =>
           let paid := sum_with_status "paid" invoiceStatusData in
           let pending := sum_with_status "pending" invoiceStatusData in
           ret (paid, pending)
       end ;;
     let '(paidTotal, pendingTotal) := totals in
     ret {| numberOfCustomers := Number_or_zero customerCount;
            numberOfInvoices := Number_or_zero invoiceCount;
            totalPaidInvoices := formatCurrency paidTotal;
            totalPendingInvoices := formatCurrency pendingTotal |})
    (fun error =>
       console_error "Database Error:" error ;;
       throw (ErrorObj (failure_message FetchCardData))).

Definition fetchFilteredInvoices (query : string) (currentPage : Z)
  : Eff (list InvoicesTable) :=
  let offset := (currentPage - 1) * ITEMS_PER_PAGE in
  try_catch
    (invoices <- await (sql_filtered_invoices sql
                          (like_pattern query) (like_pattern query)
                          (like_pattern query) (like_pattern query)
                          (like_pattern query) ITEMS_PER_PAGE offset) ;;
     ret invoices)
    (fun error =>
       console_error "Database Error:" error ;;
       throw (ErrorObj (failure_message FetchFilteredInvoices))).

Definition fetchInvoicesPages (query : string) : Eff Z :=
  try_catch
    (rows <- await (sql_count_invoices sql
                      (like_pattern query) (like_pattern query)
                      (like_pattern query) (like_pattern query)
                      (like_pattern query)) ;;
     match rows with
     | [] => throw (TypeErrorObj "Cannot read properties of undefined (reading 'count')")
     | row0 :: _ =>
         let totalPages := Math_ceil_div (count row0) ITEMS_PER_PAGE in
         ret totalPages
     end)
    (fun error =>
       console_error "Database Error:" error ;;
       throw (ErrorObj (failure_message FetchInvoicesPages))).

(** The callback of [data.rows.map] in [fetchInvoiceById]. *)
Definition cents_to_dollars (invoice : InvoiceFormRow) : InvoiceForm :=
  {| if_id := fr_id invoice;
     if_customer_id := fr_customer_id invoice;
     if_amount := Double.div (Double.of_Z (fr_amount invoice)) (Double.of_Z 100);
     if_status := fr_status invoice |}.

(** Returns [invoice[0]], which is [undefined] ([None]) on an empty array. *)
Definition fetchInvoiceById (id : string) : Eff (option InvoiceForm) :=
  try_catch
    (rows <- await (sql_invoice_by_id sql id) ;;
     let invoice := map cents_to_dollars rows in
     ret (hd_error invoice))
    (fun error =>
       console_error "Database Error:" error ;;
       throw (ErrorObj (failure_message FetchInvoiceById))).

Definition fetchCustomers : Eff (list CustomerField) :=
  try_catch
    (rows <- await (sql_customers sql) ;;
     let customers := rows in
     ret customers)
    (fun err =>
       console_error "Database Error:" err ;;
       throw (ErrorObj (failure_message FetchCustomers))).

(** The callback of [data.rows.map] in [fetchFilteredCustomers]. *)
Definition format_customer (customer : CustomersTableRaw) : FormattedCustomersTable :=
  {| fc_id := ct_id customer;
     fc_name := ct_name customer;
     fc_email := ct_email customer;
     fc_image_url := ct_image_url customer;
     fc_total_invoices := ct_total_invoices customer;
     fc_total_pending := formatCurrency (ct_total_pending customer);
     fc_total_paid := formatCurrency (ct_total_paid customer) |}.

Definition fetchFilteredCustomers (query : string)
  : Eff (list FormattedCustomersTable) :=
  try_catch
    (rows <- await (sql_filtered_customers sql
                      (like_pattern query) (like_pattern query)) ;;
     let customers := map format_customer rows in
     ret customers)
    (fun err =>
       console_error "Database Error:" err ;;
       throw (ErrorObj (failure_message FetchFilteredCustomers))).

End Accessors.

(* ================================================================= *)
(** * Semantics of the SQL statements *)

(** The tables the statements read. *)
Record Database := mkDatabase {
  invoices : list InvoiceRow;
  customers : list CustomerRow;
  revenue : list Revenue
}.

Module Pg.

(* ----------------------------------------------------------------- *)
(** ** Text operators *)

Definition is_upper (c : ascii) : bool :=
  let n := N_of_ascii c in ((65 <=? n) && (n <=? 90))%N.

Definition lower_ascii (c : ascii) : ascii :=
  if is_upper c then ascii_of_N (N_of_ascii c + 32) else c.

(** [lower(text)], on the ASCII letters. *)
Fixpoint lower (s : string) : string :=
  match s with
  | EmptyString => EmptyString
  | String c s' => String (lower_ascii c) (lower s')
  end.

(** [text LIKE pattern] with the default escape character: [%] matches any
    run of characters, [_] any one character, a backslash makes the next
    pattern character literal.  A pattern that ends in a lone backslash is
    an error in the store; [well_formed] below rules it out and the
    patterns built by the accessors are all well formed, so the answer
    given here for such a pattern is never used. *)
Fixpoint like_from (p : string) : string -> bool :=
  match p with
  | EmptyString =>
      fun s => match s with EmptyString => true | String _ _ => false end
  | String c p' =>
      if Ascii.eqb c "%" then
        fix any_run (s : string) : bool :=
          like_from p' s
          || match s with EmptyString => false | String _ s' => any_run s' end
      else if Ascii.eqb c "_" then
        fun s => match s with EmptyString => false | String _ s' => like_from p' s' end
      else if Ascii.eqb c "\" then
        match p' with
        | EmptyString => fun _ => false
        | String c2 p'' =>
            fun s =>
              match s with
              | EmptyString => false
              | String x s' => Ascii.eqb x c2 && like_from p'' s'
              end
        end
      else
        fun s =>
          match s with
          | EmptyString => false
          | String x s' => Ascii.eqb x c && like_from p' s'
          end
  end.

Definition like (text pattern : string) : bool := like_from pattern text.

(** [text ILIKE pattern]: both sides are lower-cased, then matched. *)
Definition ilike (text pattern : string) : bool :=
  like (lower text) (lower pattern).

(** No lone backslash at the end of the pattern. *)
Fixpoint well_formed (p : string) : bool :=
  match p with
  | EmptyString => true
  | String c p' =>
      if Ascii.eqb c "\" then
        match p' with
        | EmptyString => false
        | String _ p'' => well_formed p''
        end
      else well_formed p'
  end.

(** [integer::text] *)
Definition int_text (z : Z) : string := NilZero.string_of_int (Z.to_int z).

(* ----------------------------------------------------------------- *)
(** ** Relational operators *)

Section OrderBy.
Variable A : Type.
Variable leb : A -> A -> bool.

Fixpoint insert_sorted (x : A) (l : list A) : list A :=
  match l with
  | [] => [x]
  | y :: l' => if leb x y then x :: l else y :: insert_sorted x l'
  end.

(** One way to [ORDER BY]: rows with equal keys keep their relative order.
    It is the order of [client] below; [client_with] covers the others. *)
Definition order_by (l : list A) : list A :=
  fold_right insert_sorted [] l.
End OrderBy.

(** [LIMIT l OFFSET o]; the store rejects negative arguments. *)
Definition limit_offset {A} (l o : Z) (rows : list A) : settled (list A) :=
  if (l <? 0)%Z then Rejected (ErrorObj "LIMIT must not be negative")
  else if (o <? 0)%Z then Rejected (ErrorObj "OFFSET must not be negative")
  else Fulfilled (firstn (Z.to_nat l) (skipn (Z.to_nat o) rows)).

Section Statements.

Variable db : Database.

(** [FROM invoices JOIN customers ON invoices.customer_id = customers.id] *)
Definition invoices_join_customers : list (InvoiceRow * CustomerRow) :=
  flat_map
    (fun i =>
       map (pair i)
           (filter (fun c => String.eqb (i_customer_id i) (c_id c)) (customers db)))
    (invoices db).

(** [ORDER BY invoices.date DESC] *)
Definition date_desc (a b : InvoiceRow * CustomerRow) : bool :=
  String.leb (i_date (fst b)) (i_date (fst a)).

(** The [WHERE] clause of the statement of [fetchFilteredInvoices]. *)
Definition where_filtered_invoices (p1 p2 p3 p4 p5 : string)
           (r : InvoiceRow * CustomerRow) : bool :=
  let (invoices, customers) := r in
  ilike (c_name customers) p1 ||
  ilike (c_email customers) p2 ||
  ilike (int_text (i_amount invoices)) p3 ||
  ilike (i_date invoices) p4 ||
  ilike (i_status invoices) p5.

(** The select list of the statement of [fetchFilteredInvoices]. *)
Definition select_invoices_table (r : InvoiceRow * CustomerRow) : InvoicesTable :=
  let (invoices, customers) := r in
  {| it_id := i_id invoices;
     it_amount := i_amount invoices;
     it_date := i_date invoices;
     it_status := i_status invoices;
     it_name := c_name customers;
     it_email := c_email customers;
     it_image_url := c_image_url customers |}.

(** The statement of [fetchFilteredInvoices] up to its [ORDER BY], with rows
    of equal date left in the order of the join. *)
Definition ordered_matches (p1 p2 p3 p4 p5 : string) : list InvoicesTable :=
  map select_invoices_table
      (order_by date_desc
         (filter (where_filtered_invoices p1 p2 p3 p4 p5) invoices_join_customers)).

Definition filtered_invoices (p1 p2 p3 p4 p5 : string) (lim off : Z)
  : settled (list InvoicesTable) :=
  limit_offset lim off (ordered_matches p1 p2 p3 p4 p5).

(** The [WHERE] clause of the statement of [fetchInvoicesPages]. *)
Definition where_count_invoices (p1 p2 p3 p4 p5 : string)
           (r : InvoiceRow * CustomerRow) : bool :=
  let (invoices, customers) := r in
  ilike (c_name customers) p1 ||
  ilike (c_email customers) p2 ||
  ilike (int_text (i_amount invoices)) p3 ||
  ilike (i_date invoices) p4 ||
  ilike (i_status invoices) p5.

(** [SELECT COUNT( * ) ...]: one row, always. *)
Definition count_invoices (p1 p2 p3 p4 p5 : string) : settled (list CountRow) :=
  Fulfilled
    [ {| count :=
           Z.of_nat (List.length (filter (where_count_invoices p1 p2 p3 p4 p5)
                                    invoices_join_customers)) |} ].

(** The statement of [fetchInvoiceById]. *)
Definition invoice_by_id (id : string) : settled (list InvoiceFormRow) :=
  Fulfilled
    (map (fun invoices =>
            {| fr_id := i_id invoices;
               fr_customer_id := i_customer_id invoices;
               fr_amount := i_amount invoices;
               fr_status := i_status invoices |})
         (filter (fun invoices => String.eqb (i_id invoices) id) (invoices db))).

(** The statement of [fetchCustomers]. *)
Definition all_customers : settled (list CustomerField) :=
  Fulfilled
    (map (fun c => {| cf_id := c_id c; cf_name := c_name c |})
         (order_by (fun a b => String.leb (c_name a) (c_name b)) (customers db))).

(** [FROM customers LEFT JOIN invoices ON customers.id = invoices.customer_id]:
    a customer without invoices yields one row with null invoice columns. *)
Definition left_join_rows (c : CustomerRow) : list (CustomerRow * option InvoiceRow) :=
  match filter (fun i => String.eqb (c_id c) (i_customer_id i)) (invoices db) with
  | [] => [(c, None)]
  | matched => map (fun i => (c, Some i)) matched
  end.

Definition customers_left_join_invoices : list (CustomerRow * option InvoiceRow) :=
  flat_map left_join_rows (customers db).

(** The [WHERE] clause of the statement of [fetchFilteredCustomers]. *)
Definition where_filtered_customers (p1 p2 : string)
           (r : CustomerRow * option InvoiceRow) : bool :=
  ilike (c_name (fst r)) p1 || ilike (c_email (fst r)) p2.

Definition customer_eqb (a b : CustomerRow) : bool :=
  String.eqb (c_id a) (c_id b) && String.eqb (c_name a) (c_name b) &&
  String.eqb (c_email a) (c_email b) && String.eqb (c_image_url a) (c_image_url b).

(** The distinct values of the grouping columns, in order of first
    occurrence.  The four grouping columns are all the columns of
    [customers]. *)
Fixpoint group_keys (rows : list (CustomerRow * option InvoiceRow)) : list CustomerRow :=
  match rows with
  | [] => []
  | r :: rows' =>
      fst r :: filter (fun k => negb (customer_eqb k (fst r))) (group_keys rows')
  end.

(** [COUNT(invoices.id)]: counts the rows whose invoice side is not null. *)
Definition count_invoice_id (g : list (CustomerRow * option InvoiceRow)) : Z :=
  Z.of_nat (List.length (filter (fun r => match snd r with Some _ => true | None => false end) g)).

(** [SUM(CASE WHEN invoices.status = s THEN invoices.amount ELSE 0 END)] *)
Definition sum_case_status (s : string) (g : list (CustomerRow * option InvoiceRow)) : Z :=
  fold_right Z.add 0
    (map (fun r =>
            match snd r with
            | Some i => if String.eqb (i_status i) s then i_amount i else 0
            | None => 0
            end) g).

(** [GROUP BY customers.id, customers.name, customers.email, customers.image_url]
    with the select list of [fetchFilteredCustomers]. *)
Definition group_customers (rows : list (CustomerRow * option InvoiceRow))
  : list CustomersTableRaw :=
  map (fun k =>
         let g := filter (fun r => customer_eqb (fst r) k) rows in
         {| ct_id := c_id k;
            ct_name := c_name k;
            ct_email := c_email k;
            ct_image_url := c_image_url k;
            ct_total_invoices := count_invoice_id g;
            ct_total_pending := sum_case_status "pending" g;
            ct_total_paid := sum_case_status "paid" g |})
      (group_keys rows).

(** The statement of [fetchFilteredCustomers]. *)
Definition filtered_customers (p1 p2 : string) : settled (list CustomersTableRaw) :=
  Fulfilled
    (order_by (fun a b => String.leb (ct_name a) (ct_name b))
       (group_customers
          (filter (where_filtered_customers p1 p2) customers_left_join_invoices))).

(** [ORDER BY invoices.date DESC] names no second key: how rows of equal
    date follow each other is the store's choice, made anew for every
    statement.  A [DateOrdering] is one such choice for each [LIMIT] and
    [OFFSET]: some arrangement of the rows in descending order of date. *)
Record DateOrdering := mkDateOrdering {
  arrange :
    Z -> Z -> list (InvoiceRow * CustomerRow) -> list (InvoiceRow * CustomerRow);
  arrange_perm : forall lim off rows, Permutation (arrange lim off rows) rows;
  arrange_sorted :
    forall lim off rows, Sorted (fun a b => date_desc a b = true) (arrange lim off rows)
}.

(** The statement of [fetchFilteredInvoices] on a store that orders equal
    dates as [ties] says. *)
Definition filtered_invoices_with (ties : DateOrdering)
           (p1 p2 p3 p4 p5 : string) (lim off : Z) : settled (list InvoicesTable) :=
  limit_offset lim off
    (map select_invoices_table
         (arrange ties lim off
            (filter (where_filtered_invoices p1 p2 p3 p4 p5) invoices_join_customers))).

(** The [sql] client of a store that holds [db] and answers every statement. *)
Definition client : SqlClient :=
  {| sql_filtered_invoices := filtered_invoices;
     sql_count_invoices := count_invoices;
     sql_invoice_by_id := invoice_by_id;
     sql_customers := all_customers;
     sql_filtered_customers := filtered_customers |}.

(** The same store, ordering equal dates as [ties] says. *)
Definition client_with (ties : DateOrdering) : SqlClient :=
  {| sql_filtered_invoices := filtered_invoices_with ties;
     sql_count_invoices := count_invoices;
     sql_invoice_by_id := invoice_by_id;
     sql_customers := all_customers;
     sql_filtered_customers := filtered_customers |}.

End Statements.

End Pg.

(* ================================================================= *)
(** * Semantics of the query-builder chains *)

(** The five builder chains of the source, read over the same tables.  The
    embedded relation [customers (...)] follows [invoices.customer_id]; the
    store hands it over as an object or as an array ([as_array]).  Row
    limits other than the [limit(5)] of the source are not modelled. *)
Module Postgrest.
Section Chains.

Variable as_array : bool.
Variable db : Database.

Definition customer_ref (c : CustomerRow) : CustomerRef :=
  {| cr_name := c_name c; cr_image_url := c_image_url c; cr_email := c_email c |}.

(** [customers ( name, image_url, email )] *)
Definition embed_customers (i : InvoiceRow) : Relation :=
  let owners := filter (fun c => String.eqb (c_id c) (i_customer_id i)) (customers db) in
  if as_array then RelArray (map customer_ref owners)
  else RelObject (option_map customer_ref (hd_error owners)).

(** [select(amount, id, date, customer_id, customers (...))] *)
Definition select_latest (i : InvoiceRow) : LatestInvoiceRaw :=
  {| lr_amount := i_amount i;
     lr_id := i_id i;
     lr_date := i_date i;
     lr_customer_id := i_customer_id i;
     lr_customers := embed_customers i |}.

(** [from('revenue').select('*')] *)
Definition revenue_all : settled (sb_response (list Revenue)) :=
  Fulfilled (SbSuccess (revenue db) None).

(** [from('invoices').select(...).order('date', {ascending: false}).limit(5)] *)
Definition latest_invoices : settled (sb_response (list LatestInvoiceRaw)) :=
  Fulfilled
    (SbSuccess
       (firstn 5
          (map select_latest
               (Pg.order_by (fun a b => String.leb (i_date b) (i_date a)) (invoices db))))
       None).

(** [from('invoices').select('*', {count: 'exact'})] *)
Definition invoice_count : settled (sb_response (list InvoiceRow)) :=
  Fulfilled (SbSuccess (invoices db) (Some (Z.of_nat (List.length (invoices db))))).

(** [from('customers').select('*', {count: 'exact'})] *)
Definition customer_count : settled (sb_response (list CustomerRow)) :=
  Fulfilled (SbSuccess (customers db) (Some (Z.of_nat (List.length (customers db))))).

(** [from('invoices').select('amount, status').in('status', ['paid', 'pending'])] *)
Definition invoice_status : settled (sb_response (list AmountStatus)) :=
  Fulfilled
    (SbSuccess
       (map (fun i => {| as_amount := i_amount i; as_status := i_status i |})
            (filter (fun i => existsb (String.eqb (i_status i)) ["paid"; "pending"])
                    (invoices db)))
       None).

(** The [supabase] client of a store that holds [db] and answers every
    chain. *)
Definition client : SupabaseClient :=
  {| sb_revenue := revenue_all;
     sb_latest_invoices := latest_invoices;
     sb_invoice_count := invoice_count;
     sb_customer_count := customer_count;
     sb_invoice_status := invoice_status |}.

End Chains.
End Postgrest.

(* ================================================================= *)
(** * Vocabulary of the statements *)

(** ** Store failures *)

(** How a store call can fail: the supabase builder resolves with an error
    object, or the promise of either client rejects. *)
Inductive store_failure :=
| Reported (e : PostgrestError)
| Rejection (x : js_exn).

(** The store's own error value. *)
Definition raw_error (f : store_failure) : js_exn :=
  match f with
  | Reported e => PostgrestObj e
  | Rejection x => x
  end.

Definition sb_fails {T} (p : settled (sb_response T)) (f : store_failure) : Prop :=
  match f with
  | Reported e => p = Fulfilled (SbFailure e)
  | Rejection x => p = Rejected x
  end.

Definition sql_fails {T} (p : settled T) (f : store_failure) : Prop :=
  match f with
  | Reported _ => False
  | Rejection x => p = Rejected x
  end.

(** Arguments of a call; each accessor reads the ones it takes. *)
Record Call := mkCall {
  call_query : string;
  call_page : Z;
  call_id : string
}.

(** One of the store calls made by [op] fails with [f]. *)
Definition store_fails (op : accessor) (supabase : SupabaseClient) (sql : SqlClient)
           (a : Call) (f : store_failure) : Prop :=
  let pat := like_pattern (call_query a) in
  match op with
  | FetchRevenue => sb_fails (sb_revenue supabase) f
  | FetchLatestInvoices => sb_fails (sb_latest_invoices supabase) f
  | FetchCardData =>
      sb_fails (sb_invoice_count supabase) f \/
      sb_fails (sb_customer_count supabase) f \/
      sb_fails (sb_invoice_status supabase) f
  | FetchFilteredInvoices =>
      sql_fails (sql_filtered_invoices sql pat pat pat pat pat ITEMS_PER_PAGE
                   ((call_page a - 1) * ITEMS_PER_PAGE)) f
  | FetchInvoicesPages => sql_fails (sql_count_invoices sql pat pat pat pat pat) f
  | FetchInvoiceById => sql_fails (sql_invoice_by_id sql (call_id a)) f
  | FetchCustomers => sql_fails (sql_customers sql) f
  | FetchFilteredCustomers => sql_fails (sql_filtered_customers sql pat pat) f
  end.

(** One of the three store calls of [fetchCardData] rejects. *)
Definition card_call_rejects (supabase : SupabaseClient) : Prop :=
  (exists x, sb_invoice_count supabase = Rejected x) \/
  (exists x, sb_customer_count supabase = Rejected x) \/
  (exists x, sb_invoice_status supabase = Rejected x).

(** What a run wrote to the console and what it threw, if anything. *)
Definition observe {A} (m : Eff A) : list log_entry * option js_exn :=
  (console_of m,
   match outcome_of m with
   | Returned _ => None
   | Threw e => Some e
   end).

Definition run (formatCurrency : Z -> string) (supabase : SupabaseClient)
           (sql : SqlClient) (op : accessor) (a : Call)
  : list log_entry * option js_exn :=
  match op with
  | FetchRevenue => observe (fetchRevenue supabase)
  | FetchLatestInvoices => observe (fetchLatestInvoices formatCurrency supabase)
  | FetchCardData => observe (fetchCardData formatCurrency supabase)
  | FetchFilteredInvoices =>
      observe (fetchFilteredInvoices sql (call_query a) (call_page a))
  | FetchInvoicesPages => observe (fetchInvoicesPages sql (call_query a))
  | FetchInvoiceById => observe (fetchInvoiceById sql (call_id a))
  | FetchCustomers => observe (fetchCustomers sql)
  | FetchFilteredCustomers =>
      observe (fetchFilteredCustomers formatCurrency sql (call_query a))
  end.

Definition thrown_by (formatCurrency : Z -> string) (supabase : SupabaseClient)
           (sql : SqlClient) (op : accessor) (a : Call) : option js_exn :=
  snd (run formatCurrency supabase sql op a).

Definition logged_errors (formatCurrency : Z -> string) (supabase : SupabaseClient)
           (sql : SqlClient) (op : accessor) (a : Call) : list js_exn :=
  flat_map (fun entry =>
              match entry with
              | ConsoleError _ x => [x]
              | ConsoleLog _ _ => []
              end)
           (fst (run formatCurrency supabase sql op a)).

(** The rows a run returned; none if it threw. *)
Definition rows_of {A} (m : Eff (list A)) : list A :=
  match outcome_of m with
  | Returned rows => rows
  | Threw _ => []
  end.

(** ** Monetary fields of the returned records *)

(** A monetary field as the caller sees it: a string or a number. *)
Inductive js_value :=
| JsString (s : string)
| JsNumber (x : spec_float).

Class Monetary (R : Type) := monetary : R -> list js_value.

#[export] Instance Monetary_Revenue : Monetary Revenue :=
  fun r => [JsNumber (Double.of_Z (rev_revenue r))].
#[export] Instance Monetary_LatestInvoice : Monetary LatestInvoice :=
  fun r => [JsString (li_amount r)].
#[export] Instance Monetary_CardData : Monetary CardData :=
  fun r => [JsString (totalPaidInvoices r); JsString (totalPendingInvoices r)].
#[export] Instance Monetary_InvoicesTable : Monetary InvoicesTable :=
  fun r => [JsNumber (Double.of_Z (it_amount r))].
#[export] Instance Monetary_InvoiceForm : Monetary InvoiceForm :=
  fun r => [JsNumber (if_amount r)].
#[export] Instance Monetary_FormattedCustomersTable : Monetary FormattedCustomersTable :=
  fun r => [JsString (fc_total_pending r); JsString (fc_total_paid r)].
#[export] Instance Monetary_list {R} `{Monetary R} : Monetary (list R) :=
  fun l => flat_map monetary l.
#[export] Instance Monetary_option {R} `{Monetary R} : Monetary (option R) :=
  fun o => match o with Some r => monetary r | None => [] end.

(** The monetary fields of a successful result; none if the run threw. *)
Definition monetary_of {A} `{Monetary A} (m : Eff A) : list js_value :=
  match outcome_of m with
  | Returned a => monetary a
  | Threw _ => []
  end.

Definition is_currency_string (formatCurrency : Z -> string) (v : js_value) : Prop :=
  exists amount, v = JsString (formatCurrency amount).

Definition is_raw_number (v : js_value) : Prop :=
  exists q, v = JsNumber q.

(** ** The two shapes of the customer relation *)

(** An invoice with its owning customer, independently of the shape in
    which the store hands over the relation. *)
Record JoinedInvoice := mkJoined {
  j_amount : Z;
  j_id : string;
  j_date : string;
  j_customer_id : string;
  j_customer : CustomerRef
}.

Definition as_object (u : JoinedInvoice) : LatestInvoiceRaw :=
  {| lr_amount := j_amount u; lr_id := j_id u; lr_date := j_date u;
     lr_customer_id := j_customer_id u;
     lr_customers := RelObject (Some (j_customer u)) |}.

Definition as_array (u : JoinedInvoice) : LatestInvoiceRaw :=
  {| lr_amount := j_amount u; lr_id := j_id u; lr_date := j_date u;
     lr_customer_id := j_customer_id u;
     lr_customers := RelArray [j_customer u] |}.

(** The fields of a returned element other than the carried-over
    [customers] property. *)
Definition flat_fields (r : LatestInvoice)
  : string * string * string * string * option string * option string * option string :=
  (li_amount r, li_id r, li_date r, li_customer_id r,
   li_name r, li_image_url r, li_email r).

(** A supabase client that answers the latest-invoices query with [rows]. *)
Definition latest_supabase (rows : list LatestInvoiceRaw) : SupabaseClient :=
  {| sb_revenue := Fulfilled (SbSuccess [] None);
     sb_latest_invoices := Fulfilled (SbSuccess rows None);
     sb_invoice_count := Fulfilled (SbSuccess [] (Some 0));
     sb_customer_count := Fulfilled (SbSuccess [] (Some 0));
     sb_invoice_status := Fulfilled (SbSuccess [] None) |}.

(** ** Matching, in the words of the specification *)

(** [needle] occurs in [hay] as a contiguous run. *)
Fixpoint spec_contains (needle hay : string) : bool :=
  String.prefix needle hay
  || match hay with
     | EmptyString => false
     | String _ hay' => spec_contains needle hay'
     end.

(** Case-insensitive substring test. *)
Definition spec_ci_substring (q text : string) : bool :=
  spec_contains (Pg.lower q) (Pg.lower text).

(** A search term matches an invoice row when it is a case-insensitive
    substring of the customer name, the customer email, the amount as text,
    the date as text or the status. *)
Definition spec_invoice_matches (q : string) (r : InvoiceRow * CustomerRow) : bool :=
  spec_ci_substring q (c_name (snd r)) ||
  spec_ci_substring q (c_email (snd r)) ||
  spec_ci_substring q (Pg.int_text (i_amount (fst r))) ||
  spec_ci_substring q (i_date (fst r)) ||
  spec_ci_substring q (i_status (fst r)).

(** A search term matches a customer when it is a case-insensitive
    substring of the name or of the email. *)
Definition spec_customer_matches (q : string) (c : CustomerRow) : bool :=
  spec_ci_substring q (c_name c) || spec_ci_substring q (c_email c).

(** ** Size of the amounts *)

(** The amounts of the rows, added up in magnitude. *)
Definition total_magnitude (data : list AmountStatus) : Z :=
  fold_right Z.add 0 (map (fun x => Z.abs (as_amount x)) data).

(** ** Ties between pages *)

(** The store arranges [rows] in the same way for every page. *)
Definition same_order_on_every_page (ties : Pg.DateOrdering)
           (rows : list (InvoiceRow * CustomerRow)) : Prop :=
  forall p,
    1 <= p ->
    Pg.arrange ties ITEMS_PER_PAGE ((p - 1) * ITEMS_PER_PAGE) rows
    = Pg.arrange ties ITEMS_PER_PAGE 0 rows.

(** No two of [rows] are of the same date. *)
Definition distinct_dates (rows : list (InvoiceRow * CustomerRow)) : Prop :=
  NoDup (map (fun r => i_date (fst r)) rows).

(** ** Customers and their invoices *)

(** The customer a returned element stands for. *)
Definition customer_of (r : FormattedCustomersTable) : CustomerRow :=
  {| c_id := fc_id r; c_name := fc_name r; c_email := fc_email r;
     c_image_url := fc_image_url r |}.

Definition customer_of_raw (r : CustomersTableRaw) : CustomerRow :=
  {| c_id := ct_id r; c_name := ct_name r; c_email := ct_email r;
     c_image_url := ct_image_url r |}.

(** The invoices of the customer [id], and those among them in status [s]. *)
Definition invoices_of (db : Database) (id : string) : list InvoiceRow :=
  filter (fun i => String.eqb (i_customer_id i) id) (invoices db).

Definition with_status (s : string) (l : list InvoiceRow) : list InvoiceRow :=
  filter (fun i => String.eqb (i_status i) s) l.

Definition sum_amounts (l : list InvoiceRow) : Z :=
  fold_right Z.add 0 (map i_amount l).

(** The characters that [LIKE] does not read literally. *)
Definition is_wildcard (c : ascii) : bool :=
  Ascii.eqb c "%" || Ascii.eqb c "_" || Ascii.eqb c "\".

Fixpoint wildcard_free (q : string) : bool :=
  match q with
  | EmptyString => true
  | String c q' => negb (is_wildcard c) && wildcard_free q'
  end.

(** ** Sample data *)

(** A formatter to run the accessors on concrete inputs: dollars, a dot and
    the cents, without grouping.  The statements hold for any formatter. *)
Definition sample_formatCurrency (amount : Z) : string :=
  let cents := amount mod 100 in
  "$" ++ Pg.int_text (amount / 100) ++ "."
      ++ (if (cents <? 10)%Z then "0" else "") ++ Pg.int_text cents.

Definition sample_customers : list CustomerRow :=
  [ mkCustomer "c1" "Anna" "anna@x.com" "/customers/anna.png";
    mkCustomer "c2" "Bob" "banner@x.com" "/customers/bob.png";
    mkCustomer "c3" "Zoe" "zoe@y.org" "/customers/zoe.png" ].

Definition sample_invoices : list InvoiceRow :=
  [ mkInvoice "i1" "c1" 125000 "paid" "2023-01-05";
    mkInvoice "i2" "c2" 500 "pending" "2023-02-01";
    mkInvoice "i3" "c1" 700 "pending" "2022-12-31" ].

Definition sample_db : Database :=
  {| invoices := sample_invoices; customers := sample_customers; revenue := [] |}.

Definition sample_error : PostgrestError :=
  {| message := "permission denied for table invoices"; code := "42501" |}.

(** A supabase client that answers every query with no rows. *)
Definition empty_supabase : SupabaseClient :=
  {| sb_revenue := Fulfilled (SbSuccess [] None);
     sb_latest_invoices := Fulfilled (SbSuccess [] None);
     sb_invoice_count := Fulfilled (SbSuccess [] (Some 0));
     sb_customer_count := Fulfilled (SbSuccess [] (Some 0));
     sb_invoice_status := Fulfilled (SbSuccess [] None) |}.

(** A supabase client whose every query reports [e]. *)
Definition reporting_supabase (e : PostgrestError) : SupabaseClient :=
  {| sb_revenue := Fulfilled (SbFailure e);
     sb_latest_invoices := Fulfilled (SbFailure e);
     sb_invoice_count := Fulfilled (SbFailure e);
     sb_customer_count := Fulfilled (SbFailure e);
     sb_invoice_status := Fulfilled (SbFailure e) |}.

(** An [sql] client whose every statement rejects with [x]. *)
Definition rejecting_sql (x : js_exn) : SqlClient :=
  {| sql_filtered_invoices := fun _ _ _ _ _ _ _ => Rejected x;
     sql_count_invoices := fun _ _ _ _ _ => Rejected x;
     sql_invoice_by_id := fun _ => Rejected x;
     sql_customers := Rejected x;
     sql_filtered_customers := fun _ _ => Rejected x |}.

(** Counts 7 invoices and 3 customers; the amount/status query reports an
    error. *)
Definition degraded_supabase : SupabaseClient :=
  {| sb_revenue := Fulfilled (SbSuccess [] None);
     sb_latest_invoices := Fulfilled (SbSuccess [] None);
     sb_invoice_count := Fulfilled (SbSuccess [] (Some 7));
     sb_customer_count := Fulfilled (SbSuccess sample_customers (Some 3));
     sb_invoice_status := Fulfilled (SbFailure sample_error) |}.

Definition sample_joined : JoinedInvoice :=
  {| j_amount := 125000; j_id := "i1"; j_date := "2023-01-05";
     j_customer_id := "c1";
     j_customer := mkCustomerRef "Anna" "/customers/anna.png" "anna@x.com" |}.

(** One customer with thirteen invoices. *)
Definition thirteen_db : Database :=
  {| invoices :=
       map (fun k => mkInvoice (Pg.int_text (Z.of_nat k)) "c1" (Z.of_nat k * 100)
                               "paid" "2023-03-01")
           (seq 1 13);
     customers := [mkCustomer "c1" "Anna" "anna@x.com" "/customers/anna.png"];
     revenue := [] |}.

(** A supabase client whose every query rejects with [x]. *)
Definition rejecting_supabase (x : js_exn) : SupabaseClient :=
  {| sb_revenue := Rejected x;
     sb_latest_invoices := Rejected x;
     sb_invoice_count := Rejected x;
     sb_customer_count := Rejected x;
     sb_invoice_status := Rejected x |}.

(** Two invoices whose amounts are not multiples of 25 cents. *)
Definition cents_db : Database :=
  {| invoices :=
       [ mkInvoice "one" "c1" 1 "pending" "2023-04-01";
         mkInvoice "many" "c1" 1999 "paid" "2023-04-02" ];
     customers := [mkCustomer "c1" "Anna" "anna@x.com" "/customers/anna.png"];
     revenue := [] |}.

(** Seven invoices of one customer, all of the same day. *)
Definition same_day_db : Database :=
  {| invoices :=
       map (fun k => mkInvoice (Pg.int_text (Z.of_nat k)) "c1" (Z.of_nat k * 100)
                               "paid" "2023-03-01")
           (seq 1 7);
     customers := [mkCustomer "c1" "Anna" "anna@x.com" "/customers/anna.png"];
     revenue := [] |}.

Definition sample_call : Call :=
  {| call_query := "ann"; call_page := 1; call_id := "i1" |}.

(* ================================================================= *)
(** * Error wrapping *)

(** Unfolding of an accessor down to the store answers it awaits, and case
    analysis on these answers. *)
Ltac run_accessor :=
  cbv [thrown_by logged_errors run observe outcome_of console_of rows_of
       fetchRevenue fetchLatestInvoices fetchCardData fetchFilteredInvoices
       fetchInvoicesPages fetchInvoiceById fetchCustomers fetchFilteredCustomers
       await bind try_catch ret throw console_error console_log].

Ltac case_answers :=
  repeat (cbn;
          match goal with
          | |- context [match ?p with Fulfilled _ => _ | Rejected _ => _ end] =>
              destruct p
          | |- context [match ?r with SbSuccess _ _ => _ | SbFailure _ => _ end] =>
              destruct r
          | |- context [match ?l with [] => _ | _ :: _ => _ end] =>
              is_var l; destruct l
          end).

Lemma thrown_is_fixed formatCurrency supabase sql op a e :
  thrown_by formatCurrency supabase sql op a = Some e ->
  e = ErrorObj (failure_message op).
Proof.
  destruct op; run_accessor; case_answers; cbn; intros H;
    solve [discriminate H | now injection H as <-].
Qed.

Lemma store_failure_is_fatal formatCurrency supabase sql op a f :
  op <> FetchCardData ->
  store_fails op supabase sql a f ->
  thrown_by formatCurrency supabase sql op a = Some (ErrorObj (failure_message op))
  /\ In (raw_error f) (logged_errors formatCurrency supabase sql op a).
Proof.
  intros Hop Hf.
  destruct op; try congruence; destruct f as [e|x];
    cbv [store_fails sb_fails sql_fails] in Hf;
    try contradiction; run_accessor; rewrite Hf; cbn; auto.
Qed.

Lemma card_rejection_is_fatal formatCurrency supabase sql a :
  card_call_rejects supabase ->
  thrown_by formatCurrency supabase sql FetchCardData a
  = Some (ErrorObj (failure_message FetchCardData)).
Proof.
  intros [[x H]|[[x H]|[x H]]]; run_accessor; rewrite H; case_answers; reflexivity.
Qed.

Lemma card_reports_are_not_fatal formatCurrency supabase sql a r1 r2 r3 :
  sb_invoice_count supabase = Fulfilled r1 ->
  sb_customer_count supabase = Fulfilled r2 ->
  sb_invoice_status supabase = Fulfilled r3 ->
  thrown_by formatCurrency supabase sql FetchCardData a = None.
Proof.
  intros H1 H2 H3; run_accessor; rewrite H1, H2, H3.
  destruct r1, r2, r3; reflexivity.
Qed.

(** C1, as amended.  Whenever an accessor throws, what it throws is an
    [Error] carrying exactly the accessor's fixed message.  For every
    accessor other than [fetchCardData], every failure of its store call (an
    error reported in the answer, or a rejected promise) makes it throw that
    [Error], and the store's own error value goes to the console.
    [fetchCardData] throws its fixed [Error] when one of its three store
    calls rejects, and does not throw when the sub-queries only report
    errors. *)
Theorem C1_failures_surface_fixed_message :
  forall formatCurrency supabase sql op a,
    (forall e,
        thrown_by formatCurrency supabase sql op a = Some e ->
        e = ErrorObj (failure_message op)) /\
    (forall f,
        op <> FetchCardData ->
        store_fails op supabase sql a f ->
        thrown_by formatCurrency supabase sql op a
        = Some (ErrorObj (failure_message op)) /\
        In (raw_error f) (logged_errors formatCurrency supabase sql op a)) /\
    (card_call_rejects supabase ->
     thrown_by formatCurrency supabase sql FetchCardData a
     = Some (ErrorObj (failure_message FetchCardData))) /\
    (forall r1 r2 r3,
        sb_invoice_count supabase = Fulfilled r1 ->
        sb_customer_count supabase = Fulfilled r2 ->
        sb_invoice_status supabase = Fulfilled r3 ->
        thrown_by formatCurrency supabase sql FetchCardData a = None).
Proof.
  intros formatCurrency supabase sql op a.
  split; [ | split; [ | split ] ].
  - apply thrown_is_fixed.
  - intros f Hop Hf. now apply store_failure_is_fatal.
  - apply card_rejection_is_fatal.
  - apply card_reports_are_not_fatal.
Qed.

Lemma C1_failures_surface_fixed_message_witness :
  let supabase := reporting_supabase sample_error in
  let sql := rejecting_sql (ErrorObj "connection refused") in
  (thrown_by sample_formatCurrency supabase sql FetchRevenue sample_call
   = Some (ErrorObj "Failed to fetch revenue data.") /\
   In (PostgrestObj sample_error)
      (logged_errors sample_formatCurrency supabase sql FetchRevenue sample_call)) /\
  (thrown_by sample_formatCurrency supabase sql FetchFilteredInvoices sample_call
   = Some (ErrorObj "Failed to fetch invoices.") /\
   In (ErrorObj "connection refused")
      (logged_errors sample_formatCurrency supabase sql FetchFilteredInvoices
                     sample_call)) /\
  ErrorObj "Failed to fetch all customers."
  = ErrorObj (failure_message FetchCustomers) /\
  thrown_by sample_formatCurrency supabase sql FetchCardData sample_call = None /\
  thrown_by sample_formatCurrency (rejecting_supabase (ErrorObj "fetch failed")) sql
            FetchCardData sample_call
  = Some (ErrorObj "Failed to fetch card data.").
Proof.
  intros supabase sql.
  destruct (C1_failures_surface_fixed_message
              sample_formatCurrency (rejecting_supabase (ErrorObj "fetch failed")) sql
              FetchCardData sample_call)
    as [_ [_ [Hrejects _]]].
  destruct (C1_failures_surface_fixed_message
              sample_formatCurrency supabase sql FetchRevenue sample_call)
    as [_ [Hreported [_ Hcard]]].
  destruct (C1_failures_surface_fixed_message
              sample_formatCurrency supabase sql FetchFilteredInvoices sample_call)
    as [_ [Hrejected _]].
  destruct (C1_failures_surface_fixed_message
              sample_formatCurrency supabase sql FetchCustomers sample_call)
    as [Hfixed _].
  split; [ | split; [ | split; [ | split ] ] ].
  - apply (Hreported (Reported sample_error)).
    + discriminate.
    + reflexivity.
  - apply (Hrejected (Rejection (ErrorObj "connection refused"))).
    + discriminate.
    + reflexivity.
  - apply Hfixed. reflexivity.
  - apply (Hcard (SbFailure sample_error) (SbFailure sample_error)
                 (SbFailure sample_error)); reflexivity.
  - apply Hrejects. left. exists (ErrorObj "fetch failed"). reflexivity.
Defined.

(** C1 as stated fails on [fetchCardData]: all three sub-queries report an
    error, and the call returns a summary instead of throwing. *)
Lemma C1_card_data_survives_reported_error :
  store_fails FetchCardData (reporting_supabase sample_error)
              (Pg.client sample_db) sample_call (Reported sample_error) /\
  outcome_of (fetchCardData sample_formatCurrency (reporting_supabase sample_error))
  = Returned {| numberOfCustomers := 0; numberOfInvoices := 0;
                totalPaidInvoices := "$0.00"; totalPendingInvoices := "$0.00" |}.
Proof.
  split.
  - left. reflexivity.
  - reflexivity.
Qed.

(* ================================================================= *)
(** * The card summary *)

(** C2.  When the invoice count and the customer count arrive and the
    amount/status sub-query reports an error, [fetchCardData] returns the
    two counts and the formatting of zero for both totals.  Whatever the
    three sub-queries answer, errors included, the call returns a summary. *)
Theorem C2_card_data_degrades_to_zero :
  forall formatCurrency supabase,
    (forall invoiceData invoiceCount customerData customerCount invoiceStatusError,
        sb_invoice_count supabase
        = Fulfilled (SbSuccess invoiceData (Some invoiceCount)) ->
        sb_customer_count supabase
        = Fulfilled (SbSuccess customerData (Some customerCount)) ->
        sb_invoice_status supabase = Fulfilled (SbFailure invoiceStatusError) ->
        outcome_of (fetchCardData formatCurrency supabase)
        = Returned {| numberOfCustomers := customerCount;
                      numberOfInvoices := invoiceCount;
                      totalPaidInvoices := formatCurrency 0;
                      totalPendingInvoices := formatCurrency 0 |}) /\
    (forall r1 r2 r3,
        sb_invoice_count supabase = Fulfilled r1 ->
        sb_customer_count supabase = Fulfilled r2 ->
        sb_invoice_status supabase = Fulfilled r3 ->
        exists card,
          outcome_of (fetchCardData formatCurrency supabase) = Returned card).
Proof.
  intros formatCurrency supabase; split.
  - intros d1 n1 d2 n2 e H1 H2 H3.
    run_accessor. rewrite H1, H2, H3. reflexivity.
  - intros r1 r2 r3 H1 H2 H3.
    run_accessor. rewrite H1, H2, H3.
    destruct r1, r2, r3; cbn; eexists; reflexivity.
Qed.

Lemma C2_card_data_degrades_to_zero_witness :
  outcome_of (fetchCardData sample_formatCurrency degraded_supabase)
  = Returned {| numberOfCustomers := 3; numberOfInvoices := 7;
                totalPaidInvoices := sample_formatCurrency 0;
                totalPendingInvoices := sample_formatCurrency 0 |}.
Proof.
  apply (proj1 (C2_card_data_degrades_to_zero sample_formatCurrency degraded_supabase)
               [] 7 sample_customers 3 sample_error);
    reflexivity.
Defined.

(* ================================================================= *)
(** * The latest invoices *)

Lemma flatten_latest_object formatCurrency u :
  flat_fields (flatten_latest formatCurrency (as_object u))
  = (formatCurrency (j_amount u), j_id u, j_date u, j_customer_id u,
     Some (cr_name (j_customer u)), Some (cr_image_url (j_customer u)),
     Some (cr_email (j_customer u))).
Proof. reflexivity. Qed.

Lemma flatten_latest_array formatCurrency u :
  flat_fields (flatten_latest formatCurrency (as_array u))
  = flat_fields (flatten_latest formatCurrency (as_object u)).
Proof. reflexivity. Qed.

Lemma rows_of_latest formatCurrency rows :
  rows_of (fetchLatestInvoices formatCurrency (latest_supabase rows))
  = map (flatten_latest formatCurrency) rows.
Proof. reflexivity. Qed.

(** C6, as amended.  For the same invoices and customers, handed over once
    with the relation as an object and once as a one-element array,
    [fetchLatestInvoices] returns elements that agree on [amount], [id],
    [date], [customer_id], [name], [image_url] and [email], the last three
    being the customer's.  The [customers] property copied from the row by
    the spread keeps the shape the store chose. *)
Theorem C6_shapes_flatten_alike :
  forall formatCurrency (us : list JoinedInvoice),
    let from_objects :=
      rows_of (fetchLatestInvoices formatCurrency (latest_supabase (map as_object us))) in
    let from_arrays :=
      rows_of (fetchLatestInvoices formatCurrency (latest_supabase (map as_array us))) in
    map flat_fields from_objects = map flat_fields from_arrays /\
    map flat_fields from_objects
    = map (fun u => (formatCurrency (j_amount u), j_id u, j_date u, j_customer_id u,
                     Some (cr_name (j_customer u)),
                     Some (cr_image_url (j_customer u)),
                     Some (cr_email (j_customer u)))) us /\
    map li_customers from_objects = map (fun u => RelObject (Some (j_customer u))) us /\
    map li_customers from_arrays = map (fun u => RelArray [j_customer u]) us.
Proof.
  intros formatCurrency us from_objects from_arrays.
  subst from_objects from_arrays.
  rewrite !rows_of_latest, !map_map.
  repeat split; apply map_ext; intros u;
    first [ apply flatten_latest_object
          | symmetry; apply flatten_latest_array
          | reflexivity ].
Qed.

(** C6 as stated fails: the two returned elements are not identical, since
    each carries the relation in the shape it came in. *)
Lemma C6_shapes_differ_in_customers :
  rows_of (fetchLatestInvoices sample_formatCurrency
             (latest_supabase [as_object sample_joined]))
  <> rows_of (fetchLatestInvoices sample_formatCurrency
                (latest_supabase [as_array sample_joined])).
Proof.
  rewrite !rows_of_latest. cbn. intros H. discriminate H.
Qed.

(* ================================================================= *)
(** * One invoice by id *)

Lemma hd_error_map_filter {A B} (f : A -> B) (P : A -> bool) (l : list A) :
  hd_error (map f (filter P l)) = option_map f (find P l).
Proof.
  induction l as [|x l IH]; cbn; [reflexivity|].
  destruct (P x); cbn; auto.
Qed.

Lemma find_none_of_absent (id : string) (l : list InvoiceRow) :
  (forall i, In i l -> i_id i <> id) ->
  find (fun i => String.eqb (i_id i) id) l = None.
Proof.
  induction l as [|x l IH]; cbn; intros H; [reflexivity|].
  destruct (String.eqb_spec (i_id x) id) as [E|_].
  - exfalso. apply (H x); auto.
  - apply IH. intros i Hi. apply H. now right.
Qed.

Lemma fetchInvoiceById_pg db id :
  fetchInvoiceById (Pg.client db) id
  = ([], Returned
           (option_map
              (fun i => {| if_id := i_id i;
                           if_customer_id := i_customer_id i;
                           if_amount :=
                             Double.div (Double.of_Z (i_amount i)) (Double.of_Z 100);
                           if_status := i_status i |})
              (find (fun i => String.eqb (i_id i) id) (invoices db)))).
Proof.
  run_accessor. cbn.
  rewrite map_map, hd_error_map_filter. reflexivity.
Qed.

(** C7, as amended.  When the stored invoice with the given id has amount
    [a] (in cents), [fetchInvoiceById] returns it with [id], [customer_id]
    and [status] as stored and with the binary64 quotient of [a] by 100 as
    amount; a stored 125000 comes back as the number 1250. *)
Theorem C7_invoice_by_id_in_dollars :
  forall db id stored,
    find (fun i => String.eqb (i_id i) id) (invoices db) = Some stored ->
    exists invoice,
      fetchInvoiceById (Pg.client db) id = ([], Returned (Some invoice)) /\
      if_amount invoice = Double.div (Double.of_Z (i_amount stored)) (Double.of_Z 100) /\
      (i_amount stored = 125000 ->
       if_amount invoice = Double.of_Z 1250 /\
       Double.to_Q (if_amount invoice) = Some (inject_Z 1250)) /\
      if_id invoice = i_id stored /\
      if_customer_id invoice = i_customer_id stored /\
      if_status invoice = i_status stored.
Proof.
  intros db id stored Hfind.
  eexists. rewrite fetchInvoiceById_pg, Hfind. cbn [option_map].
  split; [reflexivity|]. cbn [if_amount if_id if_customer_id if_status].
  split; [reflexivity|].
  split; [|auto].
  intros ->. split; vm_compute; reflexivity.
Qed.

Lemma C7_invoice_by_id_in_dollars_witness :
  exists invoice,
    fetchInvoiceById (Pg.client sample_db) "i1" = ([], Returned (Some invoice)) /\
    if_amount invoice = Double.of_Z 1250 /\
    if_id invoice = "i1" /\ if_customer_id invoice = "c1" /\ if_status invoice = "paid".
Proof.
  destruct (C7_invoice_by_id_in_dollars sample_db "i1"
              (stored := mkInvoice "i1" "c1" 125000 "paid" "2023-01-05") eq_refl)
    as [invoice [Hrun [_ [H1250 [Hid [Hcust Hstatus]]]]]].
  exists invoice. repeat split; auto. apply H1250. reflexivity.
Defined.

(** C7 as stated fails on the word exactly: for a stored amount of 1 the
    returned amount is the binary64 number 5764607523034235 * 2^-59, which
    is not one hundredth, and for 1999 it is not 1999/100 either. *)
Lemma C7_one_cent_is_not_a_hundredth :
  (exists invoice q,
      fetchInvoiceById (Pg.client cents_db) "one" = ([], Returned (Some invoice)) /\
      if_amount invoice = S754_finite false 5764607523034235 (-59) /\
      Double.to_Q (if_amount invoice) = Some q /\
      ~ (q == inject_Z 1 / 100)%Q) /\
  (exists invoice q,
      fetchInvoiceById (Pg.client cents_db) "many" = ([], Returned (Some invoice)) /\
      Double.to_Q (if_amount invoice) = Some q /\
      ~ (q == inject_Z 1999 / 100)%Q).
Proof.
  split.
  - eexists. eexists. rewrite fetchInvoiceById_pg.
    split; [reflexivity|]. split; [vm_compute; reflexivity|].
    split; [vm_compute; reflexivity|].
    intros H. apply Qeq_bool_iff in H. vm_compute in H. discriminate H.
  - eexists. eexists. rewrite fetchInvoiceById_pg.
    split; [reflexivity|]. split; [vm_compute; reflexivity|].
    intros H. apply Qeq_bool_iff in H. vm_compute in H. discriminate H.
Qed.

(** C10.  When no stored invoice has the given id, [fetchInvoiceById]
    returns [undefined]: it does not throw and writes nothing to the
    console.  The same holds with any [sql] client that answers the
    statement with no rows. *)
Theorem C10_absent_invoice_is_undefined :
  forall id,
    (forall db,
        (forall i, In i (invoices db) -> i_id i <> id) ->
        fetchInvoiceById (Pg.client db) id = ([], Returned None)) /\
    (forall sql,
        sql_invoice_by_id sql id = Fulfilled [] ->
        fetchInvoiceById sql id = ([], Returned None)).
Proof.
  intros id; split.
  - intros db Habsent.
    rewrite fetchInvoiceById_pg, find_none_of_absent by assumption.
    reflexivity.
  - intros sql Hno. run_accessor. rewrite Hno. reflexivity.
Qed.

Lemma C10_absent_invoice_is_undefined_witness :
  fetchInvoiceById (Pg.client sample_db) "i9" = ([], Returned None) /\
  thrown_by sample_formatCurrency empty_supabase (Pg.client sample_db)
            FetchInvoiceById (mkCall "" 1 "i9") = None.
Proof.
  assert (H : fetchInvoiceById (Pg.client sample_db) "i9" = ([], Returned None)).
  { apply (proj1 (C10_absent_invoice_is_undefined "i9") sample_db).
    intros i [<-|[<-|[<-|[]]]]; discriminate. }
  split; [exact H|].
  unfold thrown_by, run, observe, call_id. rewrite H. reflexivity.
Defined.

(* ================================================================= *)
(** * Monetary fields at the boundary *)

Lemma Forall_monetary_map {A R} `{Monetary R} (P : js_value -> Prop)
      (f : A -> R) (l : list A) :
  (forall a, Forall P (monetary (f a))) ->
  Forall P (monetary (map f l)).
Proof.
  intros Hf. unfold monetary at 1, Monetary_list.
  apply Forall_flat_map, Forall_map, Forall_forall. intros a _. apply Hf.
Qed.

Lemma Forall_monetary_list {R} `{Monetary R} (P : js_value -> Prop) (l : list R) :
  (forall r, Forall P (monetary r)) ->
  Forall P (monetary l).
Proof.
  intros Hr. unfold monetary at 1, Monetary_list.
  apply Forall_flat_map, Forall_forall. intros r _. apply Hr.
Qed.

Lemma currency_string_intro formatCurrency amount :
  is_currency_string formatCurrency (JsString (formatCurrency amount)).
Proof. now exists amount. Qed.

Lemma raw_number_intro q : is_raw_number (JsNumber q).
Proof. now exists q. Qed.

Create HintDb money.
#[local] Hint Resolve currency_string_intro raw_number_intro : money.

Ltac run_monetary :=
  unfold monetary_of; run_accessor; case_answers;
  try solve [constructor].

(* ================================================================= *)
(** * Ordering and paging *)

Section OrderByFacts.
Variable A : Type.
Variable leb : A -> A -> bool.

Let le (a b : A) : Prop := leb a b = true.

Lemma insert_sorted_perm x l :
  Permutation (Pg.insert_sorted leb x l) (x :: l).
Proof.
  induction l as [|y l IH]; cbn; [reflexivity|].
  destruct (leb x y); [reflexivity|].
  rewrite IH. apply perm_swap.
Qed.

Lemma order_by_perm l : Permutation (Pg.order_by leb l) l.
Proof.
  induction l as [|x l IH]; cbn; [constructor|].
  rewrite insert_sorted_perm. now constructor.
Qed.

Lemma order_by_length l : List.length (Pg.order_by leb l) = List.length l.
Proof. apply Permutation_length, order_by_perm. Qed.

Lemma order_by_in x l : In x (Pg.order_by leb l) <-> In x l.
Proof.
  split; apply Permutation_in;
    [apply order_by_perm | symmetry; apply order_by_perm].
Qed.

Hypothesis leb_total : forall a b, leb a b = true \/ leb b a = true.

Lemma insert_sorted_hd x y l :
  le y x -> HdRel le y l -> HdRel le y (Pg.insert_sorted leb x l).
Proof.
  intros Hyx Hhd. destruct l as [|z l]; cbn.
  - now constructor.
  - destruct (leb x z); constructor; auto. now inversion Hhd.
Qed.

Lemma insert_sorted_keeps_order x l :
  Sorted le l -> Sorted le (Pg.insert_sorted leb x l).
Proof.
  induction 1 as [|y l Hs IH Hhd]; cbn.
  - repeat constructor.
  - destruct (leb x y) eqn:E.
    + repeat constructor; auto.
    + constructor; [exact IH|].
      apply insert_sorted_hd; [|exact Hhd].
      destruct (leb_total x y) as [H|H]; [congruence|exact H].
Qed.

Lemma order_by_sorted l : Sorted le (Pg.order_by leb l).
Proof.
  induction l as [|x l IH]; cbn; [constructor|].
  now apply insert_sorted_keeps_order.
Qed.
End OrderByFacts.

Lemma Sorted_map {A B} (R : A -> A -> Prop) (R' : B -> B -> Prop) (f : A -> B) l :
  (forall a b, R a b -> R' (f a) (f b)) ->
  Sorted R l -> Sorted R' (map f l).
Proof.
  intros Hf; induction 1 as [|x l Hs IH Hhd]; cbn; constructor; auto.
  destruct Hhd; cbn; constructor; auto.
Qed.

(** Consecutive runs of six elements, enough of them, make up the list. *)
Lemma slices_cover {A} (m : nat) :
  forall l : list A,
    (List.length l <= 6 * m)%nat ->
    List.concat (map (fun k => firstn 6 (skipn (6 * k) l)) (seq 0 m)) = l.
Proof.
  induction m as [|m IH]; intros l Hlen.
  - destruct l; [reflexivity|cbn in Hlen; lia].
  - cbn [seq map List.concat]. rewrite <- seq_shift, map_map.
    replace (skipn (6 * 0) l) with l by reflexivity.
    transitivity (firstn 6 l ++ skipn 6 l); [|apply firstn_skipn].
    f_equal.
    transitivity
      (List.concat (map (fun k => firstn 6 (skipn (6 * k) (skipn 6 l))) (seq 0 m))).
    + f_equal. apply map_ext. intros k.
      rewrite skipn_skipn. do 2 f_equal. lia.
    + apply IH. rewrite length_skipn. lia.
Qed.

Lemma in_slice {A} (x : A) (k : nat) l :
  In x (firstn 6 (skipn (6 * k) l)) -> In x l.
Proof.
  intros H. rewrite <- (firstn_skipn (6 * k) l). apply in_or_app. right.
  rewrite <- (firstn_skipn 6 (skipn (6 * k) l)). apply in_or_app. now left.
Qed.

Lemma in_some_slice {A} (x : A) l :
  In x l -> exists k, In x (firstn 6 (skipn (6 * k) l)).
Proof.
  intros H.
  rewrite <- (slices_cover (List.length l) l) in H by lia.
  apply in_concat in H. destruct H as [s [Hs Hx]].
  apply in_map_iff in Hs. destruct Hs as [k [<- _]]. now exists k.
Qed.

(** [Math.ceil(n / 6)] in integer terms. *)
Lemma Math_ceil_div_6 n : Math_ceil_div n ITEMS_PER_PAGE = (n + 5) / 6.
Proof.
  unfold Math_ceil_div, ITEMS_PER_PAGE, Qceiling, Qfloor. cbn.
  rewrite Z.mul_1_r.
  pose proof (Z.div_mod (- n) 6 ltac:(lia)).
  pose proof (Z.mod_pos_bound (- n) 6 ltac:(lia)).
  pose proof (Z.div_mod (n + 5) 6 ltac:(lia)).
  pose proof (Z.mod_pos_bound (n + 5) 6 ltac:(lia)).
  lia.
Qed.

Lemma Math_ceil_div_6_bounds n :
  6 * (Math_ceil_div n ITEMS_PER_PAGE - 1) < n <= 6 * Math_ceil_div n ITEMS_PER_PAGE.
Proof.
  rewrite Math_ceil_div_6.
  pose proof (Z.div_mod (n + 5) 6 ltac:(lia)).
  pose proof (Z.mod_pos_bound (n + 5) 6 ltac:(lia)).
  lia.
Qed.

(** In binary64 the quotient [13 / 6] lies strictly between 2 and 3, so
    that its ceiling is 3 there as well, and [125000 / 100] is 1250. *)
Remark double_13_over_6 :
  Double.ltb (Double.of_Z 2) (Double.div (Double.of_Z 13) (Double.of_Z 6)) = true /\
  Double.ltb (Double.div (Double.of_Z 13) (Double.of_Z 6)) (Double.of_Z 3) = true.
Proof. split; vm_compute; reflexivity. Qed.

Remark double_125000_over_100 :
  Double.div (Double.of_Z 125000) (Double.of_Z 100) = Double.of_Z 1250.
Proof. vm_compute. reflexivity. Qed.

(** The two [WHERE] clauses are the same function of the row. *)
Lemma where_clauses_agree p1 p2 p3 p4 p5 r :
  Pg.where_count_invoices p1 p2 p3 p4 p5 r
  = Pg.where_filtered_invoices p1 p2 p3 p4 p5 r.
Proof. reflexivity. Qed.

Lemma fetchFilteredInvoices_pg db query currentPage :
  1 <= currentPage ->
  let pat := like_pattern query in
  fetchFilteredInvoices (Pg.client db) query currentPage
  = ([], Returned
           (firstn 6 (skipn (6 * Z.to_nat (currentPage - 1))
                            (Pg.ordered_matches db pat pat pat pat pat)))).
Proof.
  intros Hp pat. run_accessor. cbn [Pg.client sql_filtered_invoices].
  unfold Pg.filtered_invoices, Pg.limit_offset, ITEMS_PER_PAGE.
  destruct (Z.ltb 6 0) eqn:E6; [discriminate|].
  destruct (Z.ltb ((currentPage - 1) * 6) 0) eqn:Eo; [apply Z.ltb_lt in Eo; lia|].
  cbn. do 4 f_equal.
  replace ((currentPage - 1) * 6) with (6 * (currentPage - 1)) by lia.
  rewrite Z2Nat.inj_mul by lia. reflexivity.
Qed.

Lemma fetchInvoicesPages_pg db query :
  let pat := like_pattern query in
  fetchInvoicesPages (Pg.client db) query
  = ([], Returned
           (Math_ceil_div
              (Z.of_nat (List.length (filter (Pg.where_count_invoices pat pat pat pat pat)
                                             (Pg.invoices_join_customers db))))
              ITEMS_PER_PAGE)).
Proof. reflexivity. Qed.

Lemma ordered_matches_length db p1 p2 p3 p4 p5 :
  List.length (Pg.ordered_matches db p1 p2 p3 p4 p5)
  = List.length (filter (Pg.where_count_invoices p1 p2 p3 p4 p5)
                        (Pg.invoices_join_customers db)).
Proof.
  unfold Pg.ordered_matches. rewrite length_map, order_by_length.
  f_equal.
Qed.

Lemma rows_of_page db query (k : nat) :
  rows_of (fetchFilteredInvoices (Pg.client db) query (Z.of_nat (S k)))
  = firstn 6 (skipn (6 * k)
                    (Pg.ordered_matches db (like_pattern query) (like_pattern query)
                       (like_pattern query) (like_pattern query) (like_pattern query))).
Proof.
  rewrite fetchFilteredInvoices_pg by lia. unfold rows_of, outcome_of. cbn [snd].
  do 3 f_equal. lia.
Qed.

Lemma ordered_matches_sorted db p1 p2 p3 p4 p5 :
  Sorted (fun a b => String.leb (it_date b) (it_date a) = true)
         (Pg.ordered_matches db p1 p2 p3 p4 p5).
Proof.
  unfold Pg.ordered_matches.
  apply Sorted_map with (R := fun a b => Pg.date_desc a b = true).
  - intros [i c] [i' c'] H. exact H.
  - apply order_by_sorted. intros a b. apply String.leb_total.
Qed.

(** Descending order of date, stably: one of the orders a store may choose. *)
Definition stable_ordering : Pg.DateOrdering :=
  {| Pg.arrange := fun _ _ rows => Pg.order_by Pg.date_desc rows;
     Pg.arrange_perm := fun _ _ rows => order_by_perm Pg.date_desc rows;
     Pg.arrange_sorted :=
       fun _ _ rows =>
         order_by_sorted Pg.date_desc
           (fun a b => String.leb_total (i_date (fst b)) (i_date (fst a))) rows |}.

(** Another one: as [stable_ordering] for the first page, and with rows of
    equal date the other way round for the later pages. *)
Definition alternating_ordering : Pg.DateOrdering :=
  {| Pg.arrange :=
       fun _ off rows =>
         if Z.eqb off 0 then Pg.order_by Pg.date_desc rows
         else Pg.order_by Pg.date_desc (rev rows);
     Pg.arrange_perm :=
       fun _ off rows =>
         if Z.eqb off 0 as b
            return Permutation (if b then Pg.order_by Pg.date_desc rows
                                else Pg.order_by Pg.date_desc (rev rows)) rows
         then order_by_perm Pg.date_desc rows
         else perm_trans (order_by_perm Pg.date_desc (rev rows))
                         (Permutation_sym (Permutation_rev rows));
     Pg.arrange_sorted :=
       fun _ off rows =>
         if Z.eqb off 0 as b
            return Sorted (fun a b => Pg.date_desc a b = true)
                          (if b then Pg.order_by Pg.date_desc rows
                           else Pg.order_by Pg.date_desc (rev rows))
         then order_by_sorted Pg.date_desc
                (fun a b => String.leb_total (i_date (fst b)) (i_date (fst a))) rows
         else order_by_sorted Pg.date_desc
                (fun a b => String.leb_total (i_date (fst b)) (i_date (fst a)))
                (rev rows) |}.

Lemma client_with_stable db : Pg.client_with db stable_ordering = Pg.client db.
Proof. reflexivity. Qed.

Lemma fetchFilteredInvoices_with db ties query currentPage :
  1 <= currentPage ->
  let pat := like_pattern query in
  fetchFilteredInvoices (Pg.client_with db ties) query currentPage
  = ([], Returned
           (firstn 6
              (skipn (6 * Z.to_nat (currentPage - 1))
                 (map Pg.select_invoices_table
                      (Pg.arrange ties ITEMS_PER_PAGE ((currentPage - 1) * ITEMS_PER_PAGE)
                         (filter (Pg.where_filtered_invoices pat pat pat pat pat)
                                 (Pg.invoices_join_customers db))))))).
Proof.
  intros Hp pat. run_accessor. cbn [Pg.client_with sql_filtered_invoices].
  unfold Pg.filtered_invoices_with, Pg.limit_offset.
  change (Z.ltb ITEMS_PER_PAGE 0) with false. cbv iota.
  destruct (Z.ltb ((currentPage - 1) * ITEMS_PER_PAGE) 0) eqn:Eo;
    [apply Z.ltb_lt in Eo; unfold ITEMS_PER_PAGE in Eo; lia|].
  cbn [app]. do 4 f_equal. unfold ITEMS_PER_PAGE.
  replace ((currentPage - 1) * 6) with (6 * (currentPage - 1)) by lia.
  rewrite Z2Nat.inj_mul by lia. reflexivity.
Qed.

Lemma fetchFilteredInvoices_with_rejected db ties query currentPage :
  currentPage <= 0 ->
  fetchFilteredInvoices (Pg.client_with db ties) query currentPage
  = ([ConsoleError "Database Error:" (ErrorObj "OFFSET must not be negative")],
     Threw (ErrorObj "Failed to fetch invoices.")).
Proof.
  intros Hp. run_accessor. cbn [Pg.client_with sql_filtered_invoices].
  unfold Pg.filtered_invoices_with, Pg.limit_offset.
  change (Z.ltb ITEMS_PER_PAGE 0) with false. cbv iota.
  destruct (Z.ltb ((currentPage - 1) * ITEMS_PER_PAGE) 0) eqn:Eo; [reflexivity|].
  apply Z.ltb_ge in Eo. unfold ITEMS_PER_PAGE in Eo. lia.
Qed.



(** C4.  [fetchInvoicesPages q] returns the ceiling of [n / 6], where [n] is
    the number of rows that match [q]: the least integer whose sixfold is at
    least [n].  With 13 matching rows it returns 3.  The pages 1 to
    [totalPages] of [fetchFilteredInvoices q] hold [n] rows together, which
    is at most [totalPages * 6], and the pages after them are empty. *)
Theorem C4_page_count_is_ceiling :
  forall db query,
    let pat := like_pattern query in
    let n :=
      Z.of_nat (List.length (filter (Pg.where_count_invoices pat pat pat pat pat)
                                    (Pg.invoices_join_customers db))) in
    exists totalPages,
      fetchInvoicesPages (Pg.client db) query = ([], Returned totalPages) /\
      totalPages = Qceiling (inject_Z n / inject_Z 6) /\
      6 * (totalPages - 1) < n <= 6 * totalPages /\
      (n = 13 -> totalPages = 3) /\
      let pages :=
        map (fun p => rows_of (fetchFilteredInvoices (Pg.client db) query (Z.of_nat p)))
            (seq 1 (Z.to_nat totalPages)) in
      Z.of_nat (List.length (List.concat pages)) = n /\
      Z.of_nat (List.length (List.concat pages)) <= totalPages * 6 /\
      forall p,
        totalPages < p ->
        rows_of (fetchFilteredInvoices (Pg.client db) query p) = [].
Proof.
  intros db query pat n.
  exists (Math_ceil_div n ITEMS_PER_PAGE).
  pose proof (Math_ceil_div_6_bounds n) as Hb.
  split; [apply fetchInvoicesPages_pg|].
  split; [reflexivity|].
  split; [exact Hb|].
  split; [intros ->; reflexivity|].
  intros pages.
  assert (Hall : List.concat pages = Pg.ordered_matches db pat pat pat pat pat).
  { subst pages. rewrite <- seq_shift, map_map.
    erewrite map_ext; [|intros k; apply rows_of_page].
    apply slices_cover.
    rewrite ordered_matches_length. fold pat. lia. }
  rewrite Hall, ordered_matches_length. fold pat. fold n.
  split; [reflexivity|]. split; [lia|].
  intros p Hp.
  rewrite fetchFilteredInvoices_pg by lia.
  unfold rows_of, outcome_of. cbn [snd].
  rewrite skipn_all2; [reflexivity|].
  rewrite ordered_matches_length. fold pat. lia.
Qed.

Lemma C4_page_count_is_ceiling_witness :
  fetchInvoicesPages (Pg.client thirteen_db) "" = ([], Returned 3).
Proof.
  destruct (C4_page_count_is_ceiling thirteen_db "")
    as [totalPages [Hrun [_ [_ [H13 _]]]]].
  rewrite Hrun, H13; reflexivity.
Defined.

(* ================================================================= *)
(** * Pattern matching *)

Lemma lower_append s t : Pg.lower (s ++ t) = (Pg.lower s ++ Pg.lower t)%string.
Proof. induction s as [|c s IH]; cbn; [reflexivity|now rewrite IH]. Qed.

Lemma lower_like_pattern q : Pg.lower (like_pattern q) = like_pattern (Pg.lower q).
Proof. unfold like_pattern. cbn. now rewrite lower_append. Qed.

Lemma lower_ascii_wildcard c : is_wildcard (Pg.lower_ascii c) = is_wildcard c.
Proof. destruct c as [[] [] [] [] [] [] [] []]; reflexivity. Qed.

Lemma lower_wildcard_free q : wildcard_free (Pg.lower q) = wildcard_free q.
Proof.
  induction q as [|c q IH]; cbn; [reflexivity|].
  now rewrite lower_ascii_wildcard, IH.
Qed.

(** The patterns built by the accessors never end in a lone backslash. *)
Lemma well_formed_percent_end q :
  Pg.well_formed (q ++ "%") = true /\
  (forall c q', q = String c q' -> Pg.well_formed (q' ++ "%") = true).
Proof.
  induction q as [|c q [IH1 IH2]].
  - split; [reflexivity|discriminate].
  - split.
    + cbn. destruct (Ascii.eqb c "\"); [|exact IH1].
      destruct q as [|c2 q2]; [reflexivity|].
      apply (IH2 c2 q2 eq_refl).
    + intros c' q' E. injection E as _ <-. exact IH1.
Qed.

(** Whatever the search term, the pattern handed to [ILIKE], as written and
    as lower-cased for matching, does not end in a lone backslash: a term
    cannot make the store reject the pattern. *)
Lemma like_pattern_well_formed q :
  Pg.well_formed (like_pattern q) = true
  /\ Pg.well_formed (Pg.lower (like_pattern q)) = true.
Proof.
  rewrite lower_like_pattern. unfold like_pattern.
  split; cbn; apply well_formed_percent_end.
Qed.

(** [spec_contains] is containment: some text before, the needle, some
    text after. *)
Lemma prefix_iff q s :
  String.prefix q s = true <-> exists post, s = (q ++ post)%string.
Proof.
  revert s. induction q as [|c q IH]; intros s.
  - split; [intros _; now exists s|now destruct s].
  - destruct s as [|x s]; cbn.
    + split; [discriminate|intros [post H]; discriminate H].
    + destruct (ascii_dec c x) as [->|Hne].
      * rewrite IH. split; intros [post H]; exists post.
        -- now rewrite H.
        -- now injection H.
      * split; [discriminate|].
        intros [post H]. injection H as H _. congruence.
Qed.

Lemma spec_contains_iff q s :
  spec_contains q s = true <->
  exists pre post, s = (pre ++ q ++ post)%string.
Proof.
  induction s as [|x s IH]; cbn [spec_contains]; rewrite orb_true_iff, prefix_iff.
  - split.
    + intros [[post H]|H]; [|discriminate H]. now exists EmptyString, post.
    + intros [pre [post H]]. left. destruct pre; [now exists post|discriminate H].
  - rewrite IH. split.
    + intros [[post H]|[pre [post H]]].
      * now exists EmptyString, post.
      * exists (String x pre), post. cbn. now rewrite H.
    + intros [pre [post H]]. destruct pre as [|y pre].
      * left. now exists post.
      * right. exists pre, post. cbn in H. now injection H.
Qed.

Lemma like_from_percent p s :
  Pg.like_from (String "%" p) s
  = Pg.like_from p s
    || match s with
       | EmptyString => false
       | String _ s' => Pg.like_from (String "%" p) s'
       end.
Proof. destruct s; reflexivity. Qed.

Lemma like_from_literal c p s :
  is_wildcard c = false ->
  Pg.like_from (String c p) s
  = match s with
    | EmptyString => false
    | String x s' => Ascii.eqb x c && Pg.like_from p s'
    end.
Proof.
  unfold is_wildcard. intros H.
  apply orb_false_iff in H. destruct H as [H H3].
  apply orb_false_iff in H. destruct H as [H1 H2].
  cbn. rewrite H1, H2, H3. reflexivity.
Qed.

Lemma like_from_only_percent s : Pg.like_from "%" s = true.
Proof.
  induction s as [|x s IH]; [reflexivity|].
  rewrite like_from_percent. cbn [Pg.like_from]. exact IH.
Qed.

Lemma prefix_cons c x q s :
  String.prefix (String c q) (String x s) = Ascii.eqb x c && String.prefix q s.
Proof.
  cbn. destruct (ascii_dec c x) as [->|Hne].
  - now rewrite Ascii.eqb_refl.
  - destruct (Ascii.eqb_spec x c); [congruence|reflexivity].
Qed.

Lemma like_from_prefix q :
  wildcard_free q = true ->
  forall s, Pg.like_from (q ++ "%") s = String.prefix q s.
Proof.
  induction q as [|c q IH]; intros Hq s.
  - cbn [append]. rewrite like_from_only_percent. now destruct s.
  - cbn in Hq. apply andb_true_iff in Hq. destruct Hq as [Hc Hq].
    apply negb_true_iff in Hc.
    cbn [append]. rewrite like_from_literal by exact Hc.
    destruct s as [|x s]; [reflexivity|].
    now rewrite prefix_cons, IH.
Qed.

Lemma like_from_contains q :
  wildcard_free q = true ->
  forall s, Pg.like_from (like_pattern q) s = spec_contains q s.
Proof.
  intros Hq s. unfold like_pattern. cbn [append].
  induction s as [|x s IH]; rewrite like_from_percent, like_from_prefix by exact Hq.
  - reflexivity.
  - cbn [spec_contains]. now rewrite IH.
Qed.

Lemma ilike_is_ci_substring q text :
  wildcard_free q = true ->
  Pg.ilike text (like_pattern q) = spec_ci_substring q text.
Proof.
  intros Hq. unfold Pg.ilike, Pg.like, spec_ci_substring.
  rewrite lower_like_pattern. apply like_from_contains.
  now rewrite lower_wildcard_free.
Qed.

(* ================================================================= *)
(** * Counting and paging agree *)

(** The [WHERE] clause only reads columns that the select list keeps. *)
Lemma where_reads_selected_columns p1 p2 p3 p4 p5 r r' :
  Pg.select_invoices_table r = Pg.select_invoices_table r' ->
  Pg.where_filtered_invoices p1 p2 p3 p4 p5 r
  = Pg.where_filtered_invoices p1 p2 p3 p4 p5 r'.
Proof.
  destruct r as [i c], r' as [i' c']. cbn. intros H.
  injection H as _ Hamount Hdate Hstatus Hname Hemail _.
  now rewrite Hamount, Hdate, Hstatus, Hname, Hemail.
Qed.

Lemma in_ordered_matches db p1 p2 p3 p4 p5 t :
  In t (Pg.ordered_matches db p1 p2 p3 p4 p5) <->
  exists r, Pg.select_invoices_table r = t /\
            In r (Pg.invoices_join_customers db) /\
            Pg.where_filtered_invoices p1 p2 p3 p4 p5 r = true.
Proof.
  unfold Pg.ordered_matches. rewrite in_map_iff.
  split; intros [r [Ht Hr]]; exists r; split; auto.
  - now apply order_by_in, filter_In in Hr.
  - now apply order_by_in, filter_In.
Qed.

Lemma where_is_spec_on_plain_terms q r :
  wildcard_free q = true ->
  Pg.where_count_invoices (like_pattern q) (like_pattern q) (like_pattern q)
                          (like_pattern q) (like_pattern q) r
  = spec_invoice_matches q r.
Proof.
  intros Hq. destruct r as [i c].
  unfold Pg.where_count_invoices, spec_invoice_matches.
  rewrite !ilike_is_ci_substring by exact Hq. reflexivity.
Qed.

Lemma string_leb_trans a b c :
  String.leb a b = true -> String.leb b c = true -> String.leb a c = true.
Proof.
  unfold String.leb. intros Hab Hbc.
  destruct (String.compare a b) eqn:Eab; try discriminate Hab.
  - apply String.compare_eq_iff in Eab. now subst.
  - destruct (String.compare b c) eqn:Ebc; try discriminate Hbc.
    + apply String.compare_eq_iff in Ebc. subst. now rewrite Eab.
    + apply OrderedTypeEx.String_as_OT.cmp_lt in Eab, Ebc.
      pose proof (OrderedTypeEx.String_as_OT.lt_trans a b c Eab Ebc) as Hac.
      apply OrderedTypeEx.String_as_OT.cmp_lt in Hac.
      unfold OrderedTypeEx.String_as_OT.cmp in Hac. now rewrite Hac.
Qed.

(** Rows of pairwise distinct dates can be put in descending order of date
    in one way only. *)
Lemma sorted_arrangement_unique (l1 : list (InvoiceRow * CustomerRow)) :
  forall l2,
    Sorted (fun a b => Pg.date_desc a b = true) l1 ->
    Sorted (fun a b => Pg.date_desc a b = true) l2 ->
    Permutation l1 l2 ->
    distinct_dates l1 ->
    l1 = l2.
Proof.
  assert (Htrans : Relations_1.Transitive (fun a b => Pg.date_desc a b = true)).
  { intros a b c Hab Hbc. unfold Pg.date_desc in *. eapply string_leb_trans; eauto. }
  induction l1 as [|x t1 IH]; intros l2 Hs1 Hs2 Hperm Hdist.
  - now apply Permutation_nil in Hperm.
  - destruct l2 as [|y t2];
      [apply Permutation_sym, Permutation_nil in Hperm; discriminate Hperm|].
    apply Sorted_StronglySorted in Hs1, Hs2; try exact Htrans.
    inversion Hs1 as [|? ? Hst1 Hall1]; subst.
    inversion Hs2 as [|? ? Hst2 Hall2]; subst.
    unfold distinct_dates in Hdist. cbn [map] in Hdist.
    inversion Hdist as [|? ? Hnotin Hdist']; subst.
    assert (Exy : x = y).
    { assert (Hx : In x (y :: t2)) by (apply (Permutation_in _ Hperm); now left).
      assert (Hy : In y (x :: t1))
        by (apply (Permutation_in _ (Permutation_sym Hperm)); now left).
      destruct Hx as [Hx|Hx]; [now symmetry|].
      destruct Hy as [Hy|Hy]; [exact Hy|].
      exfalso. apply Hnotin.
      pose proof (proj1 (Forall_forall _ _) Hall1 y Hy) as H1.
      pose proof (proj1 (Forall_forall _ _) Hall2 x Hx) as H2. cbv beta in H1, H2.
      unfold Pg.date_desc in H1, H2.
      rewrite (String.leb_antisym _ _ H2 H1).
      exact (in_map (fun r => i_date (fst r)) t1 y Hy). }
    subst y. f_equal. apply IH.
    + now apply StronglySorted_Sorted.
    + now apply StronglySorted_Sorted.
    + now apply Permutation_cons_inv in Hperm.
    + exact Hdist'.
Qed.

Lemma distinct_dates_same_order ties rows :
  distinct_dates rows -> same_order_on_every_page ties rows.
Proof.
  intros Hdist p _.
  apply sorted_arrangement_unique.
  - apply Pg.arrange_sorted.
  - apply Pg.arrange_sorted.
  - rewrite !Pg.arrange_perm. reflexivity.
  - unfold distinct_dates.
    apply (Permutation_NoDup (l := map (fun r => i_date (fst r)) rows));
      [|exact Hdist].
    apply Permutation_map, Permutation_sym, Pg.arrange_perm.
Qed.

(** A listed row is a matching row, however ties are ordered. *)
Lemma listed_is_matching db ties query p row :
  In row (rows_of (fetchFilteredInvoices (Pg.client_with db ties) query p)) ->
  exists r,
    In r (filter (Pg.where_filtered_invoices
                    (like_pattern query) (like_pattern query) (like_pattern query)
                    (like_pattern query) (like_pattern query))
                 (Pg.invoices_join_customers db)) /\
    Pg.select_invoices_table r = row.
Proof.
  intros Hrow. destruct (Z.le_gt_cases p 0) as [Hp|Hp].
  - rewrite fetchFilteredInvoices_with_rejected in Hrow by exact Hp. destruct Hrow.
  - rewrite fetchFilteredInvoices_with in Hrow by lia.
    unfold rows_of, outcome_of in Hrow. cbn [snd] in Hrow.
    apply in_slice, in_map_iff in Hrow. destruct Hrow as [r [Hsel Hr]].
    exists r. split; [|exact Hsel].
    now apply (Permutation_in _ (Pg.arrange_perm ties _ _ _)) in Hr.
Qed.

(** When the store arranges the matches alike for every page, a matching
    row is on some page. *)
Lemma matching_is_listed db ties query r :
  let matching :=
    filter (Pg.where_filtered_invoices
              (like_pattern query) (like_pattern query) (like_pattern query)
              (like_pattern query) (like_pattern query))
           (Pg.invoices_join_customers db) in
  same_order_on_every_page ties matching ->
  In r matching ->
  exists p,
    1 <= p /\
    In (Pg.select_invoices_table r)
       (rows_of (fetchFilteredInvoices (Pg.client_with db ties) query p)).
Proof.
  intros matching Hsame Hr.
  assert (Hin : In (Pg.select_invoices_table r)
                   (map Pg.select_invoices_table
                        (Pg.arrange ties ITEMS_PER_PAGE 0 matching))).
  { apply in_map.
    now apply (Permutation_in _ (Permutation_sym (Pg.arrange_perm ties _ _ _))). }
  apply in_some_slice in Hin. destruct Hin as [k Hk].
  exists (Z.of_nat (S k)). split; [lia|].
  rewrite fetchFilteredInvoices_with by lia.
  unfold rows_of, outcome_of. cbn [snd]. fold matching.
  rewrite Hsame by lia.
  replace (Z.to_nat (Z.of_nat (S k) - 1)) with k by lia. exact Hk.
Qed.

(** C5, as amended.  [fetchInvoicesPages q] and [fetchFilteredInvoices q p]
    filter with the same predicate: [ILIKE] against the pattern [%q%] of the
    customer name, the customer email, the amount as text, the date as text
    and the status, joined by [OR].  However the store orders rows of equal
    date, a row that appears on a page of [fetchFilteredInvoices] is counted
    by [fetchInvoicesPages].  A counted row appears on some page [p >= 1]
    when no two matching rows are of the same date, and more generally when
    the store arranges the matches alike for every page.  When [q] holds
    none of the characters [%], [_] and backslash, the predicate is the
    case-insensitive substring test on these five texts. *)
Theorem C5_count_and_pages_share_predicate :
  forall (ties : Pg.DateOrdering) db query,
    let pat := like_pattern query in
    let counted :=
      filter (Pg.where_count_invoices pat pat pat pat pat)
             (Pg.invoices_join_customers db) in
    (forall r,
        Pg.where_count_invoices pat pat pat pat pat r
        = Pg.where_filtered_invoices pat pat pat pat pat r) /\
    (forall p row,
        In row (rows_of (fetchFilteredInvoices (Pg.client_with db ties) query p)) ->
        exists r, In r counted /\ Pg.select_invoices_table r = row) /\
    (distinct_dates counted \/ same_order_on_every_page ties counted ->
     forall r,
       In r (Pg.invoices_join_customers db) ->
       (Pg.where_count_invoices pat pat pat pat pat r = true <->
        exists p,
          1 <= p /\
          In (Pg.select_invoices_table r)
             (rows_of (fetchFilteredInvoices (Pg.client_with db ties) query p)))) /\
    (wildcard_free query = true ->
     forall r,
       Pg.where_count_invoices pat pat pat pat pat r = spec_invoice_matches query r).
Proof.
  intros ties db query pat counted.
  split; [intros r; apply where_clauses_agree|].
  split; [intros p row Hrow; now apply (listed_is_matching db ties query p)|].
  split.
  - intros Hties r Hr.
    assert (Hsame : same_order_on_every_page ties counted).
    { destruct Hties as [Hd|Hs]; [now apply distinct_dates_same_order|exact Hs]. }
    split.
    + intros Hw. apply matching_is_listed; [exact Hsame|].
      apply filter_In. split; [exact Hr|]. now rewrite <- where_clauses_agree.
    + intros [p [_ Hin]].
      apply listed_is_matching in Hin. destruct Hin as [r' [Hr' Hsel]].
      apply filter_In in Hr'. destruct Hr' as [_ Hw].
      rewrite where_clauses_agree.
      now rewrite <- (where_reads_selected_columns _ _ _ _ _ _ _ Hsel).
  - intros Hq r. now apply where_is_spec_on_plain_terms.
Qed.

Lemma C5_count_and_pages_share_predicate_witness :
  let r := (mkInvoice "i1" "c1" 125000 "paid" "2023-01-05",
            mkCustomer "c1" "Anna" "anna@x.com" "/customers/anna.png") in
  (exists p,
      1 <= p /\
      In (Pg.select_invoices_table r)
         (rows_of (fetchFilteredInvoices
                     (Pg.client_with sample_db alternating_ordering) "ANN" p))) /\
  Pg.where_count_invoices "%ANN%" "%ANN%" "%ANN%" "%ANN%" "%ANN%" r
  = spec_invoice_matches "ANN" r.
Proof.
  intros r.
  destruct (C5_count_and_pages_share_predicate alternating_ordering sample_db "ANN")
    as [_ [_ [Hiff Hspec]]].
  assert (Hdist : distinct_dates
                    (filter (Pg.where_count_invoices
                               (like_pattern "ANN") (like_pattern "ANN")
                               (like_pattern "ANN") (like_pattern "ANN")
                               (like_pattern "ANN"))
                            (Pg.invoices_join_customers sample_db))).
  { vm_compute.
    repeat (apply NoDup_cons;
            [intros H; repeat (destruct H as [H|H]; [discriminate H|]); exact H|]).
    apply NoDup_nil. }
  split.
  - apply (Hiff (or_introl Hdist) r).
    + left. reflexivity.
    + reflexivity.
  - apply Hspec. reflexivity.
Defined.

(** C5 as stated fails twice.  With the search term [_] every row is counted
    and listed, while no name, email, amount, date or status has an
    underscore in it.  And with seven matching invoices of one day, on a
    store that orders equal dates one way for the first page and the other
    way for the second, two pages are counted, invoice 1 is on both, and
    invoice 7 is on neither. *)
Lemma C5_claim_fails_on_wildcards_and_ties :
  (fetchInvoicesPages (Pg.client sample_db) "_" = ([], Returned 1) /\
   List.length (rows_of (fetchFilteredInvoices (Pg.client sample_db) "_" 1)) = 3%nat /\
   filter (spec_invoice_matches "_") (Pg.invoices_join_customers sample_db) = []) /\
  (map (fun r => i_id (fst r))
       (filter (Pg.where_count_invoices "%%" "%%" "%%" "%%" "%%")
               (Pg.invoices_join_customers same_day_db))
   = ["1"; "2"; "3"; "4"; "5"; "6"; "7"] /\
   fetchInvoicesPages (Pg.client_with same_day_db alternating_ordering) ""
   = ([], Returned 2) /\
   map it_id (rows_of (fetchFilteredInvoices
                         (Pg.client_with same_day_db alternating_ordering) "" 1))
   = ["1"; "2"; "3"; "4"; "5"; "6"] /\
   map it_id (rows_of (fetchFilteredInvoices
                         (Pg.client_with same_day_db alternating_ordering) "" 2))
   = ["1"] /\
   rows_of (fetchFilteredInvoices
              (Pg.client_with same_day_db alternating_ordering) "" 3)
   = []).
Proof. repeat split; vm_compute; reflexivity. Qed.

(* ================================================================= *)
(** * Customers with their totals *)

Lemma customer_eqb_eq a b : Pg.customer_eqb a b = true <-> a = b.
Proof.
  unfold Pg.customer_eqb. rewrite !andb_true_iff, !String.eqb_eq.
  destruct a, b; cbn. split.
  - intros [[[-> ->] ->] ->]. reflexivity.
  - intros E. injection E as -> -> -> ->. auto.
Qed.

Lemma customer_eqb_refl a : Pg.customer_eqb a a = true.
Proof. now apply customer_eqb_eq. Qed.

Lemma customer_eqb_neq a b : a <> b -> Pg.customer_eqb a b = false.
Proof.
  intros Hne. destruct (Pg.customer_eqb a b) eqn:E; [|reflexivity].
  now apply customer_eqb_eq in E.
Qed.

Lemma customer_dec (a b : CustomerRow) : {a = b} + {a <> b}.
Proof. decide equality; apply string_dec. Defined.

Section Grouping.
Variable db : Database.

Lemma in_group_keys rows k :
  In k (Pg.group_keys rows) <-> In k (map fst rows).
Proof.
  induction rows as [|r rows IH]; cbn; [tauto|].
  rewrite filter_In, IH, negb_true_iff. split.
  - intros [H|[H _]]; auto.
  - intros [H|H]; auto.
    destruct (customer_dec (fst r) k) as [E|Hne]; auto.
    right. split; [exact H|]. apply customer_eqb_neq. congruence.
Qed.

Lemma NoDup_group_keys rows : NoDup (Pg.group_keys rows).
Proof.
  induction rows as [|r rows IH]; cbn; constructor.
  - rewrite filter_In, customer_eqb_refl. intros [_ H]. discriminate H.
  - now apply NoDup_filter.
Qed.

Lemma group_customers_keys rows :
  map customer_of_raw (Pg.group_customers rows) = Pg.group_keys rows.
Proof.
  unfold Pg.group_customers. rewrite map_map.
  rewrite <- (map_id (Pg.group_keys rows)) at 2.
  apply map_ext. intros [id name email image]. reflexivity.
Qed.

Lemma left_join_rows_fst c r : In r (Pg.left_join_rows db c) -> fst r = c.
Proof.
  unfold Pg.left_join_rows.
  destruct (filter _ (invoices db)) as [|i l].
  - intros [<-|[]]. reflexivity.
  - rewrite in_map_iff. intros [i' [<- _]]. reflexivity.
Qed.

Lemma left_join_rows_inhabited c : exists o, In (c, o) (Pg.left_join_rows db c).
Proof.
  unfold Pg.left_join_rows.
  destruct (filter _ (invoices db)) as [|i l].
  - exists None. now left.
  - exists (Some i). now left.
Qed.

Lemma in_left_join_fst c :
  In c (map fst (Pg.customers_left_join_invoices db)) <-> In c (customers db).
Proof.
  unfold Pg.customers_left_join_invoices. rewrite in_map_iff. split.
  - intros [r [<- Hr]]. apply in_flat_map in Hr. destruct Hr as [c' [Hc' Hr]].
    now rewrite (left_join_rows_fst _ _ Hr).
  - intros Hc. destruct (left_join_rows_inhabited c) as [o Ho].
    exists (c, o). split; [reflexivity|].
    apply in_flat_map. now exists c.
Qed.

Lemma filter_left_join_rows k c :
  filter (fun r => Pg.customer_eqb (fst r) k) (Pg.left_join_rows db c)
  = if customer_dec c k then Pg.left_join_rows db c else [].
Proof.
  pose proof (left_join_rows_fst c) as Hfst.
  induction (Pg.left_join_rows db c) as [|r l IH]; cbn.
  - now destruct (customer_dec c k).
  - rewrite (Hfst r) by now left.
    rewrite IH by (intros r' Hr'; apply Hfst; now right).
    destruct (customer_dec c k) as [->|Hne].
    + now rewrite customer_eqb_refl.
    + now rewrite customer_eqb_neq.
Qed.

Lemma filter_left_join k cs :
  NoDup cs -> In k cs ->
  filter (fun r => Pg.customer_eqb (fst r) k) (flat_map (Pg.left_join_rows db) cs)
  = Pg.left_join_rows db k.
Proof.
  induction 1 as [|c cs Hc Hnd IH]; cbn; [tauto|].
  rewrite filter_app, filter_left_join_rows.
  destruct (customer_dec c k) as [->|Hne].
  - intros _.
    assert (Hrest : filter (fun r => Pg.customer_eqb (fst r) k)
                           (flat_map (Pg.left_join_rows db) cs) = []).
    { clear IH Hnd. induction cs as [|c' cs IHcs]; cbn; [reflexivity|].
      rewrite filter_app, filter_left_join_rows.
      destruct (customer_dec c' k) as [->|_].
      - exfalso. apply Hc. now left.
      - apply IHcs. intros H. apply Hc. now right. }
    rewrite Hrest. apply app_nil_r.
  - intros [E|Hin]; [congruence|]. now apply IH.
Qed.

Lemma filter_after_filter {A} (P W : A -> bool) l :
  (forall r, P r = true -> W r = true) ->
  filter P (filter W l) = filter P l.
Proof.
  intros HPW. induction l as [|r l IH]; cbn; [reflexivity|].
  destruct (W r) eqn:EW; cbn; rewrite IH; [reflexivity|].
  destruct (P r) eqn:EP; [|reflexivity].
  rewrite (HPW r EP) in EW. discriminate EW.
Qed.

Lemma count_left_join_rows k :
  Pg.count_invoice_id (Pg.left_join_rows db k)
  = Z.of_nat (List.length (invoices_of db (c_id k))).
Proof.
  unfold Pg.count_invoice_id, Pg.left_join_rows, invoices_of.
  rewrite (filter_ext (fun i => String.eqb (i_customer_id i) (c_id k))
                      (fun i => String.eqb (c_id k) (i_customer_id i)))
    by (intros i; apply String.eqb_sym).
  destruct (filter _ (invoices db)) as [|i l]; [reflexivity|].
  f_equal. generalize (i :: l). intros l'.
  induction l' as [|x l' IH]; cbn; [reflexivity|now rewrite IH].
Qed.

Lemma sum_left_join_rows s k :
  Pg.sum_case_status s (Pg.left_join_rows db k)
  = sum_amounts (with_status s (invoices_of db (c_id k))).
Proof.
  unfold Pg.sum_case_status, Pg.left_join_rows, invoices_of, with_status, sum_amounts.
  rewrite (filter_ext (fun i => String.eqb (i_customer_id i) (c_id k))
                      (fun i => String.eqb (c_id k) (i_customer_id i)))
    by (intros i; apply String.eqb_sym).
  destruct (filter _ (invoices db)) as [|i l]; [reflexivity|].
  generalize (i :: l). intros l'.
  induction l' as [|x l' IH]; cbn; [reflexivity|].
  rewrite IH. destruct (String.eqb (i_status x) s); reflexivity.
Qed.
End Grouping.

Lemma fetchFilteredCustomers_pg formatCurrency db query :
  fetchFilteredCustomers formatCurrency (Pg.client db) query
  = ([], Returned
           (map (format_customer formatCurrency)
                (Pg.order_by (fun a b => String.leb (ct_name a) (ct_name b))
                   (Pg.group_customers
                      (filter (Pg.where_filtered_customers (like_pattern query)
                                                           (like_pattern query))
                              (Pg.customers_left_join_invoices db)))))).
Proof. reflexivity. Qed.

Lemma returned_customers formatCurrency db query :
  let matched :=
    filter (Pg.where_filtered_customers (like_pattern query) (like_pattern query))
           (Pg.customers_left_join_invoices db) in
  Permutation
    (map customer_of (rows_of (fetchFilteredCustomers formatCurrency (Pg.client db) query)))
    (Pg.group_keys matched).
Proof.
  intros matched. rewrite fetchFilteredCustomers_pg.
  unfold rows_of, outcome_of. cbn [snd]. rewrite map_map.
  rewrite <- (group_customers_keys matched).
  change (fun x => customer_of (format_customer formatCurrency x)) with customer_of_raw.
  apply Permutation_map, order_by_perm.
Qed.

Lemma in_matched_keys db p1 p2 c :
  In c (Pg.group_keys (filter (Pg.where_filtered_customers p1 p2)
                              (Pg.customers_left_join_invoices db)))
  <-> In c (customers db) /\ Pg.ilike (c_name c) p1 || Pg.ilike (c_email c) p2 = true.
Proof.
  rewrite in_group_keys, <- in_left_join_fst, !in_map_iff. split.
  - intros [r [<- Hr]]. apply filter_In in Hr. destruct Hr as [Hr Hw].
    split; [now exists r|exact Hw].
  - intros [[r [<- Hr]] Hw]. exists r. split; [reflexivity|].
    apply filter_In. now split.
Qed.

(** The rows of one group, under unique customer rows. *)
Lemma group_of_customer db p1 p2 k :
  NoDup (customers db) ->
  In k (Pg.group_keys (filter (Pg.where_filtered_customers p1 p2)
                              (Pg.customers_left_join_invoices db))) ->
  filter (fun r => Pg.customer_eqb (fst r) k)
         (filter (Pg.where_filtered_customers p1 p2)
                 (Pg.customers_left_join_invoices db))
  = Pg.left_join_rows db k.
Proof.
  intros Hnd Hk. apply in_matched_keys in Hk. destruct Hk as [Hin Hw].
  rewrite filter_after_filter.
  - now apply filter_left_join.
  - intros r Hr. apply customer_eqb_eq in Hr.
    unfold Pg.where_filtered_customers. now rewrite Hr.
Qed.

(** C9, as amended.  [fetchFilteredCustomers q] returns one element per
    customer row whose name or email matches the pattern [%q%] under
    [ILIKE], and no other; when [q] holds none of [%], [_] and backslash
    these are the customers whose name or email contains [q] as a
    case-insensitive substring, so that [ann] selects a customer named
    [Anna] and one whose email is [banner@x.com].  The elements are in
    ascending order of name.  When the customer rows are distinct, each
    element carries the number of the customer's invoices and the
    formatting of the sums of the pending and of the paid ones. *)
Theorem C9_filtered_customers_with_totals :
  forall formatCurrency db query,
    let pat := like_pattern query in
    exists rows,
      fetchFilteredCustomers formatCurrency (Pg.client db) query = ([], Returned rows) /\
      (forall c,
          In c (map customer_of rows) <->
          In c (customers db) /\
          Pg.ilike (c_name c) pat || Pg.ilike (c_email c) pat = true) /\
      (wildcard_free query = true ->
       forall c,
         In c (map customer_of rows) <->
         In c (customers db) /\ spec_customer_matches query c = true) /\
      (query = "ann" ->
       forall c,
         In c (customers db) ->
         c_name c = "Anna" \/ c_email c = "banner@x.com" ->
         In c (map customer_of rows)) /\
      NoDup (map customer_of rows) /\
      Sorted (fun a b => String.leb (fc_name a) (fc_name b) = true) rows /\
      (NoDup (customers db) ->
       forall r,
         In r rows ->
         let mine := invoices_of db (fc_id r) in
         fc_total_invoices r = Z.of_nat (List.length mine) /\
         fc_total_pending r = formatCurrency (sum_amounts (with_status "pending" mine)) /\
         fc_total_paid r = formatCurrency (sum_amounts (with_status "paid" mine))).
Proof.
  intros formatCurrency db query pat.
  pose proof (returned_customers formatCurrency db query) as Hperm.
  cbv zeta in Hperm. fold pat in Hperm.
  eexists. split; [apply fetchFilteredCustomers_pg|].
  rewrite fetchFilteredCustomers_pg in Hperm.
  unfold rows_of, outcome_of in Hperm. cbn [snd] in Hperm. fold pat in Hperm.
  fold pat.
  assert (Hmem : forall c,
             In c (map customer_of
                       (map (format_customer formatCurrency)
                            (Pg.order_by (fun a b => String.leb (ct_name a) (ct_name b))
                               (Pg.group_customers
                                  (filter (Pg.where_filtered_customers pat pat)
                                          (Pg.customers_left_join_invoices db)))))) <->
             In c (customers db) /\
             Pg.ilike (c_name c) pat || Pg.ilike (c_email c) pat = true).
  { intros c. rewrite <- in_matched_keys. split; apply Permutation_in.
    - exact Hperm.
    - symmetry. exact Hperm. }
  split; [exact Hmem|].
  split.
  { intros Hq c. rewrite Hmem. unfold spec_customer_matches, pat.
    now rewrite !ilike_is_ci_substring. }
  split.
  { intros Hq c Hc Hann. apply Hmem. split; [exact Hc|].
    unfold pat. rewrite Hq. destruct Hann as [-> | ->].
    - reflexivity.
    - apply orb_true_r. }
  split.
  { apply (Permutation_NoDup (l := Pg.group_keys
                                     (filter (Pg.where_filtered_customers pat pat)
                                             (Pg.customers_left_join_invoices db)))).
    - symmetry. exact Hperm.
    - apply NoDup_group_keys. }
  split.
  { apply Sorted_map with (R := fun a b => String.leb (ct_name a) (ct_name b) = true).
    - intros a b H. exact H.
    - apply order_by_sorted. intros a b. apply String.leb_total. }
  intros Hnd r Hr mine. subst mine.
  apply in_map_iff in Hr. destruct Hr as [x [<- Hx]].
  apply order_by_in in Hx.
  unfold Pg.group_customers in Hx. apply in_map_iff in Hx.
  destruct Hx as [k [<- Hk]]. cbn.
  rewrite group_of_customer by assumption.
  rewrite count_left_join_rows, !sum_left_join_rows. auto.
Qed.

Lemma NoDup_sample_customers : NoDup (customers sample_db).
Proof.
  repeat constructor; cbn; intuition discriminate.
Defined.

Lemma C9_filtered_customers_with_totals_witness :
  exists rows,
    fetchFilteredCustomers sample_formatCurrency (Pg.client sample_db) "ann"
    = ([], Returned rows) /\
    In (mkCustomer "c1" "Anna" "anna@x.com" "/customers/anna.png")
       (map customer_of rows) /\
    In (mkCustomer "c2" "Bob" "banner@x.com" "/customers/bob.png")
       (map customer_of rows) /\
    (forall r,
        In r rows ->
        fc_total_invoices r
        = Z.of_nat (List.length (invoices_of sample_db (fc_id r))) /\
        fc_total_pending r
        = sample_formatCurrency
            (sum_amounts (with_status "pending" (invoices_of sample_db (fc_id r)))) /\
        fc_total_paid r
        = sample_formatCurrency
            (sum_amounts (with_status "paid" (invoices_of sample_db (fc_id r))))).
Proof.
  destruct (C9_filtered_customers_with_totals sample_formatCurrency sample_db "ann")
    as [rows [Hrun [_ [Hspec [Hann [_ [_ Htotals]]]]]]].
  exists rows. split; [exact Hrun|]. split; [|split].
  - apply (Hspec eq_refl). split; [left; reflexivity|reflexivity].
  - apply (Hann eq_refl).
    + right. left. reflexivity.
    + right. reflexivity.
  - apply Htotals. exact NoDup_sample_customers.
Defined.

(** C9 as stated fails: the search term [_] selects every customer, and none
    of them has an underscore in the name or in the email. *)
Lemma C9_underscore_selects_every_customer :
  map fc_name
      (rows_of (fetchFilteredCustomers sample_formatCurrency (Pg.client sample_db) "_"))
  = ["Anna"; "Bob"; "Zoe"] /\
  filter (spec_customer_matches "_") (customers sample_db) = [].
Proof. split; reflexivity. Qed.

(* ================================================================= *)
(** * Further properties: console and failures *)

(** An accessor that throws has written to [console.error]; apart from
    [fetchCardData], an accessor that returns has not. *)
Theorem console_error_tracks_failure :
  forall formatCurrency supabase sql op a,
    (forall e,
        thrown_by formatCurrency supabase sql op a = Some e ->
        logged_errors formatCurrency supabase sql op a <> []) /\
    (op <> FetchCardData ->
     thrown_by formatCurrency supabase sql op a = None ->
     logged_errors formatCurrency supabase sql op a = []).
Proof.
  intros formatCurrency supabase sql op a. split.
  - intros e. destruct op; run_accessor; case_answers; cbn;
      solve [discriminate | intros _; discriminate].
  - intros Hop. destruct op; try congruence; run_accessor; case_answers; cbn;
      solve [reflexivity | discriminate].
Qed.

Lemma console_error_tracks_failure_witness :
  logged_errors sample_formatCurrency empty_supabase
                (rejecting_sql (ErrorObj "connection refused"))
                FetchCustomers sample_call <> [] /\
  logged_errors sample_formatCurrency empty_supabase (Pg.client sample_db)
                FetchCustomers sample_call = [].
Proof.
  split.
  - apply (proj1 (console_error_tracks_failure
                    sample_formatCurrency empty_supabase
                    (rejecting_sql (ErrorObj "connection refused"))
                    FetchCustomers sample_call)
                 (ErrorObj "Failed to fetch all customers.")).
    reflexivity.
  - apply (proj2 (console_error_tracks_failure
                    sample_formatCurrency empty_supabase (Pg.client sample_db)
                    FetchCustomers sample_call)).
    + discriminate.
    + reflexivity.
Defined.

(* ================================================================= *)
(** * Further properties: the card summary *)

(** When the three store calls of [fetchCardData] resolve, each field of
    the summary depends on its own sub-query only: a count sub-query that
    reports an error, or answers without a count, gives 0 whatever rows came
    along, and the totals are those of the amount/status rows, or those of
    no rows when that sub-query reports an error. *)
Theorem card_data_field_by_field :
  forall formatCurrency supabase r1 r2 r3,
    sb_invoice_count supabase = Fulfilled r1 ->
    sb_customer_count supabase = Fulfilled r2 ->
    sb_invoice_status supabase = Fulfilled r3 ->
    outcome_of (fetchCardData formatCurrency supabase)
    = Returned
        {| numberOfCustomers :=
             match r2 with SbSuccess _ (Some n) => n | _ => 0 end;
           numberOfInvoices :=
             match r1 with SbSuccess _ (Some n) => n | _ => 0 end;
           totalPaidInvoices :=
             formatCurrency
               match r3 with
               | SbSuccess data _ => sum_with_status "paid" data
               | SbFailure _ => 0
               end;
           totalPendingInvoices :=
             formatCurrency
               match r3 with
               | SbSuccess data _ => sum_with_status "pending" data
               | SbFailure _ => 0
               end |}.
Proof.
  intros formatCurrency supabase r1 r2 r3 H1 H2 H3.
  run_accessor. rewrite H1, H2, H3.
  destruct r1 as [d1 [n1|]|e1], r2 as [d2 [n2|]|e2], r3 as [d3 c3|e3]; reflexivity.
Qed.

Lemma card_data_field_by_field_witness :
  outcome_of (fetchCardData sample_formatCurrency (reporting_supabase sample_error))
  = Returned {| numberOfCustomers := 0; numberOfInvoices := 0;
                totalPaidInvoices := sample_formatCurrency 0;
                totalPendingInvoices := sample_formatCurrency 0 |}.
Proof.
  apply (card_data_field_by_field
           sample_formatCurrency (reporting_supabase sample_error)
           (r1 := SbFailure sample_error) (r2 := SbFailure sample_error)
           (r3 := SbFailure sample_error)); reflexivity.
Defined.

Lemma fold_left_add_shift (l : list AmountStatus) (a : Z) :
  fold_left (fun sum invoice => sum + as_amount invoice) l a
  = a + fold_right Z.add 0 (map as_amount l).
Proof.
  revert a. induction l as [|x l IH]; intros a; cbn; [lia|].
  rewrite IH. lia.
Qed.

Lemma sum_with_status_unfold s data :
  sum_with_status s data
  = fold_right Z.add 0
      (map as_amount (filter (fun invoice => String.eqb (as_status invoice) s) data)).
Proof. unfold sum_with_status. rewrite fold_left_add_shift. lia. Qed.

Lemma sum_with_status_cons s x data :
  sum_with_status s (x :: data)
  = (if String.eqb (as_status x) s then as_amount x else 0) + sum_with_status s data.
Proof.
  rewrite !sum_with_status_unfold. cbn.
  destruct (String.eqb (as_status x) s); reflexivity.
Qed.

Lemma total_magnitude_perm (data data' : list AmountStatus) :
  Permutation data data' -> total_magnitude data = total_magnitude data'.
Proof.
  unfold total_magnitude.
  induction 1 as [|x l l' _ IH|x y l|l l' l'' _ IH1 _ IH2]; cbn; lia.
Qed.

(** A total is no larger in magnitude than the amounts taken together. *)
Lemma sum_with_status_within s (data : list AmountStatus) :
  Z.abs (sum_with_status s data) <= total_magnitude data.
Proof.
  unfold total_magnitude.
  induction data as [|x data IH]; [cbn; lia|].
  rewrite sum_with_status_cons. cbn [map fold_right].
  destruct (String.eqb (as_status x) s); lia.
Qed.

(** The totals of [fetchCardData] are sums over the rows in the given
    status.  A row in any other status adds nothing to either.  As long as
    the amounts, added up in magnitude, stay within [2^53] (so that every
    partial sum, in any order, is an integer that binary64 holds exactly),
    the totals do not depend on the order of the rows, and when every row
    is paid or pending the two totals add up to the sum of all amounts. *)
Theorem card_totals_are_sums :
  forall data data' : list AmountStatus,
    (total_magnitude data <= 2 ^ 53 ->
     Permutation data data' ->
     total_magnitude data' <= 2 ^ 53 /\
     forall s, sum_with_status s data = sum_with_status s data') /\
    (forall x,
        as_status x <> "paid" -> as_status x <> "pending" ->
        sum_with_status "paid" (x :: data) = sum_with_status "paid" data /\
        sum_with_status "pending" (x :: data) = sum_with_status "pending" data) /\
    (total_magnitude data <= 2 ^ 53 ->
     (forall x, In x data -> as_status x = "paid" \/ as_status x = "pending") ->
     sum_with_status "paid" data + sum_with_status "pending" data
     = fold_right Z.add 0 (map as_amount data) /\
     Z.abs (sum_with_status "paid" data) <= 2 ^ 53 /\
     Z.abs (sum_with_status "pending" data) <= 2 ^ 53) .
Proof.
  intros data data'. split; [|split].
  - intros Hbound Hperm. split.
    { rewrite <- (total_magnitude_perm Hperm). exact Hbound. }
    clear Hbound. intros s.
    induction Hperm as [|x l l' _ IH|x y l|l l' l'' _ IH1 _ IH2].
    + reflexivity.
    + rewrite !sum_with_status_cons, IH. reflexivity.
    + rewrite !sum_with_status_cons. lia.
    + now rewrite IH1.
  - intros x Hpaid Hpending. rewrite !sum_with_status_cons.
    apply String.eqb_neq in Hpaid, Hpending. now rewrite Hpaid, Hpending.
  - intros Hbound Hall. split; [|split].
    + clear Hbound. induction data as [|x data IH]; [reflexivity|].
      rewrite !sum_with_status_cons. cbn [map fold_right].
      rewrite <- IH by (intros y Hy; apply Hall; now right).
      destruct (Hall x (or_introl eq_refl)) as [E|E]; rewrite E; cbn; lia.
    + pose proof (sum_with_status_within "paid" data). lia.
    + pose proof (sum_with_status_within "pending" data). lia.
Qed.

Lemma card_totals_are_sums_witness :
  let data := [mkAmountStatus 125000 "paid"; mkAmountStatus 500 "pending";
               mkAmountStatus 700 "pending"] in
  sum_with_status "pending" data = sum_with_status "pending" (rev data) /\
  sum_with_status "paid" (mkAmountStatus 900 "void" :: data)
  = sum_with_status "paid" data /\
  sum_with_status "paid" data + sum_with_status "pending" data = 126200.
Proof.
  intros data.
  destruct (card_totals_are_sums data (rev data)) as [Hperm [Hother Hall]].
  split; [|split].
  - apply Hperm; [vm_compute; discriminate|apply Permutation_rev].
  - apply (Hother (mkAmountStatus 900 "void")); discriminate.
  - destruct Hall as [Hsum _]; [vm_compute; discriminate| |rewrite Hsum; reflexivity].
    intros x [<-|[<-|[<-|[]]]]; auto.
Defined.

(* ================================================================= *)
(** * Further properties: the latest invoices *)

(** [fetchLatestInvoices] returns one element per row of the answer, in the
    same order, with the row's [id] and the formatting of its [amount].
    When the relation is [null] or an empty array, [name], [image_url] and
    [email] are [undefined]; when it is an array of several customers, they
    are those of the first. *)
Theorem latest_invoices_row_by_row :
  forall formatCurrency supabase data cnt,
    sb_latest_invoices supabase = Fulfilled (SbSuccess data cnt) ->
    exists rows,
      outcome_of (fetchLatestInvoices formatCurrency supabase) = Returned rows /\
      Forall2
        (fun raw r =>
           li_id r = lr_id raw /\
           li_amount r = formatCurrency (lr_amount raw) /\
           (li_name r, li_image_url r, li_email r)
           = match lr_customers raw with
             | RelObject None | RelArray [] => (None, None, None)
             | RelObject (Some c) | RelArray (c :: _) =>
                 (Some (cr_name c), Some (cr_image_url c), Some (cr_email c))
             end)
        data rows.
Proof.
  intros formatCurrency supabase data cnt Hanswer.
  exists (map (flatten_latest formatCurrency) data). split.
  - run_accessor. rewrite Hanswer. reflexivity.
  - clear Hanswer. induction data as [|raw data IH]; cbn; [constructor|].
    constructor; [|exact IH].
    repeat split. unfold flatten_latest. cbn.
    destruct (lr_customers raw) as [[c|]|[|c cs]]; reflexivity.
Qed.

Lemma latest_invoices_row_by_row_witness :
  exists rows,
    outcome_of (fetchLatestInvoices sample_formatCurrency
                  (latest_supabase [mkLatestRaw 500 "i2" "2023-02-01" "c9" (RelArray [])]))
    = Returned rows /\
    map li_name rows = [None].
Proof.
  destruct (latest_invoices_row_by_row
              sample_formatCurrency
              (latest_supabase [mkLatestRaw 500 "i2" "2023-02-01" "c9" (RelArray [])])
              (data := [mkLatestRaw 500 "i2" "2023-02-01" "c9" (RelArray [])])
              (cnt := None) eq_refl)
    as [rows [Hrun Hrows]].
  exists rows. split; [exact Hrun|].
  inversion Hrows as [|raw r l l' [_ [_ Hnames]] Hrest]; subst.
  inversion Hrest; subst. cbn in Hnames.
  injection Hnames as Hname _ _. cbn. now rewrite Hname.
Defined.

(* ================================================================= *)
(** * Further properties: counting pages *)

(** [fetchInvoicesPages] reads the first row of the answer only: with no
    row at all it throws its fixed message, and otherwise, for a count from
    0 to below [2^53] (the range in which binary64 holds the count and the
    ceiling of its quotient is that of the exact quotient), it returns the
    ceiling of that row's count over 6.  Against the tables, the result is
    never negative and is 0 exactly when no row matches. *)
Theorem invoices_pages_edge_cases :
  forall query,
    (forall sql,
        sql_count_invoices sql (like_pattern query) (like_pattern query)
                           (like_pattern query) (like_pattern query)
                           (like_pattern query) = Fulfilled [] ->
        outcome_of (fetchInvoicesPages sql query)
        = Threw (ErrorObj "Failed to fetch total number of invoices.")) /\
    (forall sql row0 others,
        sql_count_invoices sql (like_pattern query) (like_pattern query)
                           (like_pattern query) (like_pattern query)
                           (like_pattern query) = Fulfilled (row0 :: others) ->
        0 <= count row0 < 2 ^ 53 ->
        fetchInvoicesPages sql query = ([], Returned ((count row0 + 5) / 6))) /\
    (forall db,
        exists totalPages,
          fetchInvoicesPages (Pg.client db) query = ([], Returned totalPages) /\
          0 <= totalPages /\
          (totalPages = 0 <->
           filter (Pg.where_count_invoices
                     (like_pattern query) (like_pattern query) (like_pattern query)
                     (like_pattern query) (like_pattern query))
                  (Pg.invoices_join_customers db) = [])).
Proof.
  intros query. split; [|split].
  - intros sql H. run_accessor. rewrite H. reflexivity.
  - intros sql row0 others H _. run_accessor. rewrite H. cbn.
    now rewrite Math_ceil_div_6.
  - intros db. eexists. split; [apply fetchInvoicesPages_pg|].
    rewrite Math_ceil_div_6.
    destruct (filter _ (Pg.invoices_join_customers db)) as [|r l].
    + cbn. split; [lia|]. split; reflexivity.
    + cbn [List.length].
      assert (H : 1 <= (Z.of_nat (S (List.length l)) + 5) / 6).
      { apply Z.div_le_lower_bound; lia. }
      split; [lia|]. split; [lia|discriminate].
Qed.

Lemma invoices_pages_edge_cases_witness :
  outcome_of (fetchInvoicesPages
                (mkSql (fun _ _ _ _ _ _ _ => Fulfilled [])
                       (fun _ _ _ _ _ => Fulfilled [])
                       (fun _ => Fulfilled []) (Fulfilled [])
                       (fun _ _ => Fulfilled []))
                "ann")
  = Threw (ErrorObj "Failed to fetch total number of invoices.") /\
  fetchInvoicesPages
    (mkSql (fun _ _ _ _ _ _ _ => Fulfilled [])
           (fun _ _ _ _ _ => Fulfilled [mkCountRow 13; mkCountRow 600])
           (fun _ => Fulfilled []) (Fulfilled [])
           (fun _ _ => Fulfilled []))
    "ann"
  = ([], Returned 3).
Proof.
  split.
  - apply (proj1 (invoices_pages_edge_cases "ann")). reflexivity.
  - apply (proj1 (proj2 (invoices_pages_edge_cases "ann")) _ (mkCountRow 13)
                 [mkCountRow 600]).
    + reflexivity.
    + cbn. lia.
Defined.

(* ================================================================= *)
(** * Further properties: the customer list *)

(** [fetchCustomers] returns the [id] and [name] of every customer row, once
    per row, in ascending order of name, and writes nothing to the
    console. *)
Theorem customers_listed_by_name :
  forall db,
    exists rows,
      fetchCustomers (Pg.client db) = ([], Returned rows) /\
      Permutation rows
                  (map (fun c => {| cf_id := c_id c; cf_name := c_name c |})
                       (customers db)) /\
      Sorted (fun a b => String.leb (cf_name a) (cf_name b) = true) rows.
Proof.
  intros db. eexists. split; [reflexivity|]. split.
  - apply Permutation_map, order_by_perm.
  - apply Sorted_map with (R := fun a b => String.leb (c_name a) (c_name b) = true).
    + intros a b H. exact H.
    + apply order_by_sorted. intros a b. apply String.leb_total.
Qed.

(* ================================================================= *)
(** * Further properties: pages of invoices *)

Lemma fetchFilteredInvoices_rejected db query currentPage :
  currentPage <= 0 ->
  fetchFilteredInvoices (Pg.client db) query currentPage
  = ([ConsoleError "Database Error:" (ErrorObj "OFFSET must not be negative")],
     Threw (ErrorObj "Failed to fetch invoices.")).
Proof.
  intros Hp. run_accessor. cbn [Pg.client sql_filtered_invoices].
  unfold Pg.filtered_invoices, Pg.limit_offset, ITEMS_PER_PAGE.
  destruct (Z.ltb 6 0) eqn:E6; [discriminate|].
  destruct (Z.ltb ((currentPage - 1) * 6) 0) eqn:Eo; [reflexivity|].
  apply Z.ltb_ge in Eo. lia.
Qed.

(** For a page number below 1 the offset is negative, the store rejects the
    statement and [fetchFilteredInvoices] throws its fixed message after
    logging the store's error; no row is returned. *)
Theorem page_below_one_fails :
  forall db query currentPage,
    currentPage <= 0 ->
    fetchFilteredInvoices (Pg.client db) query currentPage
    = ([ConsoleError "Database Error:" (ErrorObj "OFFSET must not be negative")],
       Threw (ErrorObj "Failed to fetch invoices.")).
Proof. exact fetchFilteredInvoices_rejected. Qed.

Lemma page_below_one_fails_witness :
  outcome_of (fetchFilteredInvoices (Pg.client sample_db) "ann" 0)
  = Threw (ErrorObj "Failed to fetch invoices.").
Proof.
  rewrite (page_below_one_fails sample_db "ann" (currentPage := 0)) by lia.
  reflexivity.
Defined.

Lemma in_invoices_join_customers db i c :
  In (i, c) (Pg.invoices_join_customers db) <->
  In i (invoices db) /\ In c (customers db) /\ i_customer_id i = c_id c.
Proof.
  unfold Pg.invoices_join_customers. rewrite in_flat_map. split.
  - intros [i' [Hi Hic]]. apply in_map_iff in Hic.
    destruct Hic as [c' [E Hc]]. injection E as -> ->.
    apply filter_In in Hc. destruct Hc as [Hc Heq].
    apply String.eqb_eq in Heq. auto.
  - intros [Hi [Hc Heq]]. exists i. split; [exact Hi|].
    apply in_map, filter_In. split; [exact Hc|]. now apply String.eqb_eq.
Qed.

(** Every row that [fetchFilteredInvoices] returns is a stored invoice
    joined with a stored customer whose [id] is the invoice's
    [customer_id], and it satisfies the [WHERE] clause: an invoice without
    such a customer is never listed. *)
Theorem listed_rows_are_joined_matches :
  forall db query currentPage row,
    In row (rows_of (fetchFilteredInvoices (Pg.client db) query currentPage)) ->
    exists i c,
      In i (invoices db) /\ In c (customers db) /\ i_customer_id i = c_id c /\
      row = Pg.select_invoices_table (i, c) /\
      Pg.where_filtered_invoices (like_pattern query) (like_pattern query)
                                 (like_pattern query) (like_pattern query)
                                 (like_pattern query) (i, c) = true.
Proof.
  intros db query currentPage row Hrow.
  destruct (Z.le_gt_cases currentPage 0) as [Hp|Hp].
  - rewrite fetchFilteredInvoices_rejected in Hrow by exact Hp. destruct Hrow.
  - rewrite fetchFilteredInvoices_pg in Hrow by lia.
    unfold rows_of, outcome_of in Hrow. cbn [snd] in Hrow.
    apply in_slice, in_ordered_matches in Hrow.
    destruct Hrow as [[i c] [Hsel [Hjoin Hw]]].
    apply in_invoices_join_customers in Hjoin.
    destruct Hjoin as [Hi [Hc Heq]].
    exists i, c. auto.
Qed.

Lemma listed_rows_are_joined_matches_witness :
  exists i c,
    In i (invoices sample_db) /\ In c (customers sample_db) /\
    i_customer_id i = c_id c /\
    mkInvoicesTable "i2" 500 "2023-02-01" "pending" "Bob" "banner@x.com"
                    "/customers/bob.png"
    = Pg.select_invoices_table (i, c).
Proof.
  destruct (listed_rows_are_joined_matches
              sample_db "bob" 1
              (mkInvoicesTable "i2" 500 "2023-02-01" "pending" "Bob" "banner@x.com"
                               "/customers/bob.png"))
    as [i [c [Hi [Hc [Hid [Hrow _]]]]]].
  - left. reflexivity.
  - exists i, c. auto.
Defined.

Lemma firstn_plus {A} (a b : nat) (l : list A) :
  firstn (a + b) l = firstn a l ++ firstn b (skipn a l).
Proof.
  revert l. induction a as [|a IH]; intros l; [reflexivity|].
  destruct l as [|x l]; cbn.
  - now rewrite firstn_nil.
  - now rewrite IH.
Qed.

Lemma slices_prefix {A} (k : nat) :
  forall l : list A,
    List.concat (map (fun j => firstn 6 (skipn (6 * j) l)) (seq 0 k))
    = firstn (6 * k) l.
Proof.
  induction k as [|k IH]; intros l; [reflexivity|].
  cbn [seq map List.concat]. rewrite <- seq_shift, map_map.
  replace (skipn (6 * 0) l) with l by reflexivity.
  replace (6 * S k)%nat with (6 + 6 * k)%nat by lia.
  rewrite firstn_plus. f_equal.
  rewrite <- IH. f_equal. apply map_ext. intros j.
  rewrite skipn_skipn. do 2 f_equal. lia.
Qed.

(** However the store orders rows of equal date, page [p >= 1] of
    [fetchFilteredInvoices] holds 6 rows, or what is left of the matches
    after the offset when that is less.  When no two matching rows are of
    the same date, or the store arranges the matches alike for every page,
    paging neither drops nor repeats rows: the first [k] pages, one after
    the other, are the first [6 * k] of the ordered matches. *)
Theorem pages_tile_the_matches :
  forall (ties : Pg.DateOrdering) db query,
    let matching :=
      filter (Pg.where_filtered_invoices (like_pattern query) (like_pattern query)
                (like_pattern query) (like_pattern query) (like_pattern query))
             (Pg.invoices_join_customers db) in
    (forall p,
        1 <= p ->
        List.length (rows_of (fetchFilteredInvoices (Pg.client_with db ties) query p))
        = Nat.min 6 (List.length matching - 6 * Z.to_nat (p - 1))) /\
    (distinct_dates matching \/ same_order_on_every_page ties matching ->
     forall k,
       List.concat
         (map (fun p =>
                 rows_of (fetchFilteredInvoices (Pg.client_with db ties) query
                                                (Z.of_nat p)))
              (seq 1 k))
       = firstn (6 * k)
                (map Pg.select_invoices_table
                     (Pg.arrange ties ITEMS_PER_PAGE 0 matching))).
Proof.
  intros ties db query matching. split.
  - intros p Hp. rewrite fetchFilteredInvoices_with by exact Hp.
    unfold rows_of, outcome_of. cbn [snd]. fold matching.
    rewrite length_firstn, length_skipn, length_map.
    now rewrite (Permutation_length (Pg.arrange_perm ties _ _ matching)).
  - intros Hties k.
    assert (Hsame : same_order_on_every_page ties matching).
    { destruct Hties as [Hd|Hs]; [now apply distinct_dates_same_order|exact Hs]. }
    rewrite <- seq_shift, map_map.
    rewrite <- slices_prefix. f_equal. apply map_ext. intros j.
    rewrite fetchFilteredInvoices_with by lia.
    unfold rows_of, outcome_of. cbn [snd]. fold matching.
    rewrite Hsame by lia.
    replace (Z.to_nat (Z.of_nat (S j) - 1)) with j by lia. reflexivity.
Qed.

Lemma pages_tile_the_matches_witness :
  List.length (rows_of (fetchFilteredInvoices
                          (Pg.client_with same_day_db alternating_ordering) "" 2))
  = 1%nat /\
  map it_id
      (List.concat
         (map (fun p =>
                 rows_of (fetchFilteredInvoices
                            (Pg.client_with sample_db alternating_ordering) ""
                            (Z.of_nat p)))
              (seq 1 2)))
  = ["i2"; "i1"; "i3"].
Proof.
  split.
  - rewrite (proj1 (pages_tile_the_matches alternating_ordering same_day_db "") 2)
      by lia.
    reflexivity.
  - rewrite (proj2 (pages_tile_the_matches alternating_ordering sample_db "")).
    + reflexivity.
    + left. vm_compute.
      repeat (apply NoDup_cons;
              [intros H; repeat (destruct H as [H|H]; [discriminate H|]); exact H|]).
      apply NoDup_nil.
Defined.

(* ================================================================= *)
(** * Further properties: the search term *)

Lemma ilike_reads_lowered_term q text :
  Pg.ilike text (like_pattern q)
  = Pg.like_from (like_pattern (Pg.lower q)) (Pg.lower text).
Proof. unfold Pg.ilike, Pg.like. now rewrite lower_like_pattern. Qed.

Lemma ilike_same_lowered q1 q2 text :
  Pg.lower q1 = Pg.lower q2 ->
  Pg.ilike text (like_pattern q1) = Pg.ilike text (like_pattern q2).
Proof. intros H. now rewrite !ilike_reads_lowered_term, H. Qed.

(** The letter case of the search term is immaterial: two terms with the
    same lower-casing give the same page of invoices, the same page count
    and the same customers. *)
Theorem search_ignores_case_of_term :
  forall formatCurrency db q1 q2 currentPage,
    Pg.lower q1 = Pg.lower q2 ->
    fetchFilteredInvoices (Pg.client db) q1 currentPage
    = fetchFilteredInvoices (Pg.client db) q2 currentPage /\
    fetchInvoicesPages (Pg.client db) q1 = fetchInvoicesPages (Pg.client db) q2 /\
    fetchFilteredCustomers formatCurrency (Pg.client db) q1
    = fetchFilteredCustomers formatCurrency (Pg.client db) q2.
Proof.
  intros formatCurrency db q1 q2 currentPage Hq.
  assert (Hinv : forall r,
             Pg.where_filtered_invoices (like_pattern q1) (like_pattern q1)
               (like_pattern q1) (like_pattern q1) (like_pattern q1) r
             = Pg.where_filtered_invoices (like_pattern q2) (like_pattern q2)
                 (like_pattern q2) (like_pattern q2) (like_pattern q2) r).
  { intros [i c]. unfold Pg.where_filtered_invoices.
    now rewrite !(ilike_same_lowered q1 q2) by exact Hq. }
  assert (Hcust : forall r,
             Pg.where_filtered_customers (like_pattern q1) (like_pattern q1) r
             = Pg.where_filtered_customers (like_pattern q2) (like_pattern q2) r).
  { intros r. unfold Pg.where_filtered_customers.
    now rewrite !(ilike_same_lowered q1 q2) by exact Hq. }
  split; [|split].
  - unfold fetchFilteredInvoices. cbn [Pg.client sql_filtered_invoices].
    unfold Pg.filtered_invoices, Pg.ordered_matches.
    now rewrite (filter_ext _ _ Hinv).
  - rewrite !fetchInvoicesPages_pg. cbv zeta.
    rewrite (filter_ext _ _ (fun r => where_clauses_agree _ _ _ _ _ r)).
    rewrite (filter_ext _ _ Hinv).
    now rewrite <- (filter_ext _ _ (fun r => where_clauses_agree _ _ _ _ _ r)).
  - rewrite !fetchFilteredCustomers_pg. now rewrite (filter_ext _ _ Hcust).
Qed.

Lemma search_ignores_case_of_term_witness :
  fetchFilteredInvoices (Pg.client sample_db) "ANNA" 1
  = fetchFilteredInvoices (Pg.client sample_db) "anna" 1 /\
  fetchInvoicesPages (Pg.client sample_db) "ANNA"
  = fetchInvoicesPages (Pg.client sample_db) "anna" /\
  fetchFilteredCustomers sample_formatCurrency (Pg.client sample_db) "ANNA"
  = fetchFilteredCustomers sample_formatCurrency (Pg.client sample_db) "anna".
Proof.
  apply (search_ignores_case_of_term sample_formatCurrency sample_db "ANNA" "anna" 1).
  reflexivity.
Defined.

Lemma ilike_empty_term text : Pg.ilike text (like_pattern "") = true.
Proof.
  rewrite ilike_reads_lowered_term. cbn [Pg.lower].
  unfold like_pattern. cbn [append].
  rewrite like_from_percent, like_from_only_percent. reflexivity.
Qed.

(** With the empty search term every row matches: the page count is that of
    all joined invoice rows, and [fetchFilteredCustomers] lists every
    customer. *)
Theorem empty_term_lists_everything :
  forall formatCurrency db,
    fetchInvoicesPages (Pg.client db) ""
    = ([], Returned ((Z.of_nat (List.length (Pg.invoices_join_customers db)) + 5) / 6)) /\
    Pg.ordered_matches db (like_pattern "") (like_pattern "") (like_pattern "")
                       (like_pattern "") (like_pattern "")
    = map Pg.select_invoices_table
          (Pg.order_by Pg.date_desc (Pg.invoices_join_customers db)) /\
    (forall c,
        In c (map customer_of
                  (rows_of (fetchFilteredCustomers formatCurrency (Pg.client db) "")))
        <-> In c (customers db)).
Proof.
  intros formatCurrency db.
  assert (Hall : forall r,
             Pg.where_filtered_invoices (like_pattern "") (like_pattern "")
               (like_pattern "") (like_pattern "") (like_pattern "") r = true).
  { intros [i c]. unfold Pg.where_filtered_invoices.
    now rewrite ilike_empty_term. }
  assert (Hid : filter (Pg.where_filtered_invoices (like_pattern "") (like_pattern "")
                          (like_pattern "") (like_pattern "") (like_pattern ""))
                       (Pg.invoices_join_customers db)
                = Pg.invoices_join_customers db).
  { apply forallb_filter_id, forallb_forall. intros r _. apply Hall. }
  split; [|split].
  - rewrite fetchInvoicesPages_pg. cbv zeta.
    change (Pg.where_count_invoices ?a ?b ?c ?d ?e)
      with (Pg.where_filtered_invoices a b c d e).
    rewrite Hid. now rewrite Math_ceil_div_6.
  - unfold Pg.ordered_matches. now rewrite Hid.
  - intros c.
    pose proof (returned_customers formatCurrency db "") as Hperm. cbv zeta in Hperm.
    split.
    + intros H. apply (Permutation_in _ Hperm), in_matched_keys in H. tauto.
    + intros H. apply (Permutation_in _ (Permutation_sym Hperm)), in_matched_keys.
      split; [exact H|]. now rewrite ilike_empty_term.
Qed.

Lemma empty_term_lists_everything_witness :
  In (mkCustomer "c3" "Zoe" "zoe@y.org" "/customers/zoe.png")
     (map customer_of
          (rows_of (fetchFilteredCustomers sample_formatCurrency
                      (Pg.client sample_db) ""))).
Proof.
  apply (proj2 (proj2 (empty_term_lists_everything sample_formatCurrency sample_db))).
  right. right. left. reflexivity.
Defined.

(* ================================================================= *)
(** * Further properties: one invoice by id *)

(** [fetchInvoiceById] returns [undefined] exactly when no stored invoice
    has the id, and an invoice it returns has the id that was asked for and
    the [customer_id], the [status] and, divided by 100 in binary64, the
    amount of a stored invoice with that id. *)
Theorem invoice_by_id_is_the_one_asked_for :
  forall db id,
    exists result,
      fetchInvoiceById (Pg.client db) id = ([], Returned result) /\
      (result = None <-> forall i, In i (invoices db) -> i_id i <> id) /\
      (forall invoice,
          result = Some invoice ->
          if_id invoice = id /\
          exists i,
            In i (invoices db) /\ i_id i = id /\
            if_customer_id invoice = i_customer_id i /\
            if_status invoice = i_status i /\
            if_amount invoice
            = Double.div (Double.of_Z (i_amount i)) (Double.of_Z 100)).
Proof.
  intros db id. eexists. split; [apply fetchInvoiceById_pg|].
  destruct (find (fun i => String.eqb (i_id i) id) (invoices db)) as [stored|] eqn:Hfind;
    cbn [option_map].
  - apply find_some in Hfind. destruct Hfind as [Hin Heq].
    apply String.eqb_eq in Heq. split.
    + split; [discriminate|]. intros Habsent. now elim (Habsent stored Hin).
    + intros invoice E. injection E as <-. cbn. split; [exact Heq|].
      exists stored. repeat split; auto.
  - split.
    + split; [|reflexivity]. intros _ i Hi.
      apply (find_none _ _ Hfind) in Hi. now apply String.eqb_neq in Hi.
    + discriminate.
Qed.

Lemma invoice_by_id_is_the_one_asked_for_witness :
  exists invoice,
    outcome_of (fetchInvoiceById (Pg.client sample_db) "i3") = Returned (Some invoice) /\
    if_id invoice = "i3".
Proof.
  destruct (invoice_by_id_is_the_one_asked_for sample_db "i3")
    as [result [Hrun [_ Hsome]]].
  destruct result as [invoice|].
  - exists invoice. split.
    + now rewrite Hrun.
    + apply (Hsome invoice eq_refl).
  - exfalso. rewrite fetchInvoiceById_pg in Hrun. discriminate Hrun.
Defined.

(* ================================================================= *)
(** * Further properties: the dashboard against the tables *)

Lemma Sorted_firstn {A} (R : A -> A -> Prop) (n : nat) (l : list A) :
  Sorted R l -> Sorted R (firstn n l).
Proof.
  intros Hs. revert n. induction Hs as [|x l Hs IH Hhd]; intros [|n]; cbn;
    try constructor.
  - apply IH.
  - destruct Hhd as [|y l' Hxy]; destruct n; cbn; constructor; exact Hxy.
Qed.

Lemma in_firstn {A} (x : A) (n : nat) (l : list A) : In x (firstn n l) -> In x l.
Proof.
  intros H. rewrite <- (firstn_skipn n l). apply in_or_app. now left.
Qed.

Lemma hd_error_filter {A} (P : A -> bool) (l : list A) :
  hd_error (filter P l) = find P l.
Proof.
  induction l as [|x l IH]; cbn; [reflexivity|]. now destruct (P x).
Qed.

Lemma flatten_embedded formatCurrency as_array db i :
  let owner := find (fun c => String.eqb (c_id c) (i_customer_id i)) (customers db) in
  let r := flatten_latest formatCurrency (Postgrest.select_latest as_array db i) in
  li_id r = i_id i /\
  li_amount r = formatCurrency (i_amount i) /\
  li_date r = i_date i /\
  li_name r = option_map c_name owner /\
  li_image_url r = option_map c_image_url owner /\
  li_email r = option_map c_email owner.
Proof.
  intros owner r. subst owner r.
  unfold flatten_latest, Postgrest.select_latest, Postgrest.embed_customers. cbn.
  rewrite <- hd_error_filter.
  destruct as_array; cbn;
    destruct (filter _ (customers db)) as [|c cs]; cbn; repeat split; reflexivity.
Qed.

(** Against the tables, [fetchLatestInvoices] returns the 5 invoices that
    come first by descending date, or all of them when there are fewer,
    newest first; each carries the formatting of the stored amount and the
    name, image and email of the first customer whose [id] is its
    [customer_id], or [undefined] for the three when there is none.  The
    shape in which the store hands over the relation makes no difference. *)
Theorem latest_invoices_from_tables :
  forall formatCurrency as_array db,
    exists rows,
      outcome_of (fetchLatestInvoices formatCurrency (Postgrest.client as_array db))
      = Returned rows /\
      List.length rows = Nat.min 5 (List.length (invoices db)) /\
      Sorted (fun a b => String.leb (li_date b) (li_date a) = true) rows /\
      forall r,
        In r rows ->
        exists i,
          In i (invoices db) /\
          let owner :=
            find (fun c => String.eqb (c_id c) (i_customer_id i)) (customers db) in
          li_id r = i_id i /\
          li_amount r = formatCurrency (i_amount i) /\
          li_date r = i_date i /\
          li_name r = option_map c_name owner /\
          li_image_url r = option_map c_image_url owner /\
          li_email r = option_map c_email owner.
Proof.
  intros formatCurrency as_array db.
  eexists. split; [reflexivity|].
  rewrite firstn_map, map_map.
  split; [|split].
  - now rewrite length_map, length_firstn, order_by_length.
  - apply Sorted_map
      with (R := fun a b : InvoiceRow => String.leb (i_date b) (i_date a) = true).
    + intros a b H. exact H.
    + apply Sorted_firstn, order_by_sorted. intros a b. apply String.leb_total.
  - intros r Hr. apply in_map_iff in Hr. destruct Hr as [i [<- Hi]].
    exists i. split.
    + now apply in_firstn, order_by_in in Hi.
    + apply flatten_embedded.
Qed.

Lemma latest_invoices_from_tables_witness :
  exists rows r,
    outcome_of (fetchLatestInvoices sample_formatCurrency
                  (Postgrest.client true sample_db))
    = Returned rows /\
    hd_error rows = Some r /\
    exists i,
      In i (invoices sample_db) /\
      li_id r = i_id i /\
      li_name r
      = option_map c_name
          (find (fun c => String.eqb (c_id c) (i_customer_id i)) (customers sample_db)).
Proof.
  destruct (latest_invoices_from_tables sample_formatCurrency true sample_db)
    as [rows [Hrun [_ [_ Hrows]]]].
  assert (E : Returned rows
              = outcome_of (fetchLatestInvoices sample_formatCurrency
                              (Postgrest.client true sample_db)))
    by (symmetry; exact Hrun).
  vm_compute in E. injection E as E.
  destruct rows as [|r rows']; [discriminate E|].
  exists (r :: rows'), r. split; [exact Hrun|]. split; [reflexivity|].
  destruct (Hrows r (or_introl eq_refl)) as [i [Hi [Hid [_ [_ [Hname _]]]]]].
  exists i. auto.
Defined.



(* ================================================================= *)
(** * Further properties: narrowing a search *)

Lemma string_append_assoc (a b c : string) :
  ((a ++ b) ++ c)%string = (a ++ b ++ c)%string.
Proof. induction a as [|x a IH]; cbn; [reflexivity|now rewrite IH]. Qed.

Lemma wildcard_free_append q x :
  wildcard_free (q ++ x) = wildcard_free q && wildcard_free x.
Proof.
  induction q as [|c q IH]; cbn; [reflexivity|].
  now rewrite IH, andb_assoc.
Qed.

Lemma spec_ci_substring_shorter q x text :
  spec_ci_substring (q ++ x) text = true -> spec_ci_substring q text = true.
Proof.
  unfold spec_ci_substring. rewrite lower_append, !spec_contains_iff.
  intros [pre [post H]]. exists pre, (Pg.lower x ++ post)%string.
  now rewrite H, string_append_assoc.
Qed.

Lemma filter_length_mono {A} (P Q : A -> bool) (l : list A) :
  (forall r, P r = true -> Q r = true) ->
  (List.length (filter P l) <= List.length (filter Q l))%nat.
Proof.
  intros HPQ. induction l as [|r l IH]; cbn; [lia|].
  destruct (P r) eqn:EP.
  - rewrite (HPQ r EP). cbn. lia.
  - destruct (Q r); cbn; lia.
Qed.

(** Typing further narrows the search.  When the longer term [q ++ x] holds
    none of [%], [_] and backslash, every invoice row it matches is matched
    by [q], it gives no more pages than [q], and every customer it selects
    is selected by [q]. *)
Theorem longer_term_narrows_search :
  forall formatCurrency db q x,
    wildcard_free (q ++ x) = true ->
    (forall r,
        Pg.where_filtered_invoices (like_pattern (q ++ x)) (like_pattern (q ++ x))
          (like_pattern (q ++ x)) (like_pattern (q ++ x)) (like_pattern (q ++ x)) r
        = true ->
        Pg.where_filtered_invoices (like_pattern q) (like_pattern q) (like_pattern q)
          (like_pattern q) (like_pattern q) r
        = true) /\
    (exists m n,
        fetchInvoicesPages (Pg.client db) (q ++ x) = ([], Returned m) /\
        fetchInvoicesPages (Pg.client db) q = ([], Returned n) /\
        m <= n) /\
    (forall c,
        In c (map customer_of
                  (rows_of (fetchFilteredCustomers formatCurrency (Pg.client db) (q ++ x)))) ->
        In c (map customer_of
                  (rows_of (fetchFilteredCustomers formatCurrency (Pg.client db) q)))).
Proof.
  intros formatCurrency db q x Hfree.
  pose proof Hfree as Hboth. rewrite wildcard_free_append in Hboth.
  apply andb_true_iff in Hboth. destruct Hboth as [Hq _].
  assert (Hrow : forall r,
             Pg.where_count_invoices (like_pattern (q ++ x)) (like_pattern (q ++ x))
               (like_pattern (q ++ x)) (like_pattern (q ++ x)) (like_pattern (q ++ x)) r
             = true ->
             Pg.where_count_invoices (like_pattern q) (like_pattern q) (like_pattern q)
               (like_pattern q) (like_pattern q) r
             = true).
  { intros r. rewrite !where_is_spec_on_plain_terms by assumption.
    unfold spec_invoice_matches. rewrite !orb_true_iff. intros H.
    repeat match goal with
           | H : _ \/ _ |- _ => destruct H as [H|H]
           end;
      apply spec_ci_substring_shorter in H; tauto. }
  split; [exact Hrow|]. split.
  - do 2 eexists. split; [apply fetchInvoicesPages_pg|].
    split; [apply fetchInvoicesPages_pg|].
    rewrite !Math_ceil_div_6. apply Z.div_le_mono; [lia|].
    pose proof (filter_length_mono _ _ (Pg.invoices_join_customers db) Hrow). lia.
  - intros c Hc.
    apply (Permutation_in _ (returned_customers formatCurrency db (q ++ x))) in Hc.
    apply (Permutation_in _ (Permutation_sym (returned_customers formatCurrency db q))).
    apply in_matched_keys in Hc. apply in_matched_keys.
    destruct Hc as [Hin Hm]. split; [exact Hin|].
    rewrite !ilike_is_ci_substring in Hm by assumption.
    rewrite !ilike_is_ci_substring by assumption.
    apply orb_true_iff in Hm. apply orb_true_iff.
    destruct Hm as [Hm|Hm]; apply spec_ci_substring_shorter in Hm; tauto.
Qed.

Lemma longer_term_narrows_search_witness :
  In (mkCustomer "c1" "Anna" "anna@x.com" "/customers/anna.png")
     (map customer_of
          (rows_of (fetchFilteredCustomers sample_formatCurrency
                      (Pg.client sample_db) "ann"))).
Proof.
  apply (proj2 (proj2 (longer_term_narrows_search
                         sample_formatCurrency sample_db "ann" "a" eq_refl))).
  left. reflexivity.
Defined.

(* ================================================================= *)
(** * Monetary fields at the boundary: which are formatted *)

Lemma monetary_invoice_rows (rows : list InvoicesTable) :
  monetary rows = map (fun r => JsNumber (Double.of_Z (it_amount r))) rows.
Proof.
  unfold monetary at 1, Monetary_list.
  induction rows as [|r rows IH]; cbn; [reflexivity|now rewrite IH].
Qed.

Lemma monetary_revenue_rows (rows : list Revenue) :
  monetary rows = map (fun r => JsNumber (Double.of_Z (rev_revenue r))) rows.
Proof.
  unfold monetary at 1, Monetary_list.
  induction rows as [|r rows IH]; cbn; [reflexivity|now rewrite IH].
Qed.

(** C8, as amended.  In every successful result of [fetchLatestInvoices]
    ([amount]), [fetchCardData] ([totalPaidInvoices], [totalPendingInvoices])
    and [fetchFilteredCustomers] ([total_pending], [total_paid]) each
    monetary field is a string produced by [formatCurrency].  The other
    three return numbers: [fetchFilteredInvoices] the amount of each row as
    the store delivered it, which against the tables is the stored amount
    of an invoice; [fetchInvoiceById] the amount of the first row divided by
    100 in binary64; [fetchRevenue] the revenue of each row as delivered. *)
Theorem C8_which_amounts_are_formatted :
  forall formatCurrency supabase sql query currentPage id,
    Forall (is_currency_string formatCurrency)
           (monetary_of (fetchLatestInvoices formatCurrency supabase)) /\
    Forall (is_currency_string formatCurrency)
           (monetary_of (fetchCardData formatCurrency supabase)) /\
    Forall (is_currency_string formatCurrency)
           (monetary_of (fetchFilteredCustomers formatCurrency sql query)) /\
    Forall is_raw_number (monetary_of (fetchFilteredInvoices sql query currentPage)) /\
    Forall is_raw_number (monetary_of (fetchInvoiceById sql id)) /\
    Forall is_raw_number (monetary_of (fetchRevenue supabase)) /\
    monetary_of (fetchFilteredInvoices sql query currentPage)
    = match sql_filtered_invoices sql (like_pattern query) (like_pattern query)
              (like_pattern query) (like_pattern query) (like_pattern query)
              ITEMS_PER_PAGE ((currentPage - 1) * ITEMS_PER_PAGE)
      with
      | Fulfilled rows => map (fun r => JsNumber (Double.of_Z (it_amount r))) rows
      | Rejected _ => []
      end /\
    (forall ties db,
        Forall (fun v => exists i,
                    In i (invoices db) /\ v = JsNumber (Double.of_Z (i_amount i)))
               (monetary_of (fetchFilteredInvoices (Pg.client_with db ties)
                                                   query currentPage))) /\
    monetary_of (fetchInvoiceById sql id)
    = match sql_invoice_by_id sql id with
      | Fulfilled (row :: _) =>
          [JsNumber (Double.div (Double.of_Z (fr_amount row)) (Double.of_Z 100))]
      | Fulfilled [] => []
      | Rejected _ => []
      end /\
    (forall db,
        monetary_of (fetchInvoiceById (Pg.client db) id)
        = match find (fun i => String.eqb (i_id i) id) (invoices db) with
          | Some i =>
              [JsNumber (Double.div (Double.of_Z (i_amount i)) (Double.of_Z 100))]
          | None => []
          end) /\
    monetary_of (fetchRevenue supabase)
    = match sb_revenue supabase with
      | Fulfilled (SbSuccess data _) =>
          map (fun r => JsNumber (Double.of_Z (rev_revenue r))) data
      | Fulfilled (SbFailure _) => []
      | Rejected _ => []
      end.
Proof.
  intros formatCurrency supabase sql query currentPage id.
  split; [|split; [|split; [|split; [|split; [|split]]]]];
    try (run_monetary;
         first [ apply Forall_monetary_map; intros r
               | apply Forall_monetary_list; intros r
               | match goal with
                 | |- context [map _ ?l] => destruct l
                 end
               | idtac ];
         repeat constructor; cbn; auto with money; fail).
  split; [|split; [|split; [|split]]].
  - unfold monetary_of. run_accessor.
    destruct (sql_filtered_invoices sql _ _ _ _ _ _ _) as [rows|x]; cbn;
      [apply monetary_invoice_rows|reflexivity].
  - intros ties db. apply Forall_forall. intros v Hv.
    unfold monetary_of in Hv.
    destruct (outcome_of (fetchFilteredInvoices (Pg.client_with db ties) query currentPage))
      as [rows|x] eqn:Hout; [|destruct Hv].
    rewrite monetary_invoice_rows in Hv. apply in_map_iff in Hv.
    destruct Hv as [row [<- Hrow]].
    assert (Hlisted : In row (rows_of (fetchFilteredInvoices (Pg.client_with db ties)
                                                            query currentPage)))
      by (unfold rows_of; now rewrite Hout).
    apply listed_is_matching in Hlisted. destruct Hlisted as [[i c] [Hr <-]].
    apply filter_In in Hr. destruct Hr as [Hr _].
    apply in_invoices_join_customers in Hr. destruct Hr as [Hi _].
    exists i. split; [exact Hi|reflexivity].
  - unfold monetary_of. run_accessor.
    destruct (sql_invoice_by_id sql id) as [[|row rows]|x]; reflexivity.
  - intros db. rewrite fetchInvoiceById_pg. unfold monetary_of, outcome_of. cbn [snd].
    destruct (find _ (invoices db)); reflexivity.
  - unfold monetary_of. run_accessor.
    destruct (sb_revenue supabase) as [[data cnt|e]|x]; cbn;
      [apply monetary_revenue_rows|reflexivity|reflexivity].
Qed.

(** C8 as stated fails: the amount returned by [fetchInvoiceById] is the
    number 1250, and the amounts returned by [fetchFilteredInvoices] are the
    stored integers. *)
Lemma C8_invoice_amounts_stay_numbers :
  monetary_of (fetchInvoiceById (Pg.client sample_db) "i1")
  = [JsNumber (Double.of_Z 1250)] /\
  monetary_of (fetchFilteredInvoices (Pg.client sample_db) "paid" 1)
  = [JsNumber (Double.of_Z 125000)] /\
  ~ Forall (is_currency_string sample_formatCurrency)
           (monetary_of (fetchInvoiceById (Pg.client sample_db) "i1")) /\
  ~ Forall (is_currency_string sample_formatCurrency)
           (monetary_of (fetchFilteredInvoices (Pg.client sample_db) "paid" 1)).
Proof.
  assert (H1 : monetary_of (fetchInvoiceById (Pg.client sample_db) "i1")
               = [JsNumber (Double.of_Z 1250)]) by (vm_compute; reflexivity).
  assert (H2 : monetary_of (fetchFilteredInvoices (Pg.client sample_db) "paid" 1)
               = [JsNumber (Double.of_Z 125000)]) by (vm_compute; reflexivity).
  repeat split; auto.
  - rewrite H1. intros H. inversion H as [|v l [amount Hv] _]. discriminate Hv.
  - rewrite H2. intros H. inversion H as [|v l [amount Hv] _]. discriminate Hv.
Qed.
